(** * Ingestion pipeline of pdf-llm-backend

    A shallow embedding of the upload path of the FastAPI backend:
    [PDFValidator] (src/utils/validate_pdf.py), [PDFExtractor]
    (src/extractors/pdf_extractor.py), [S3Service.upload_file_to_s3]
    (src/services/s3_service.py) and the route handlers [upload_pdf],
    [get_document] and [get_documents] (src/comms/api_server.py).

    The third-party collaborators (pypdf, pdfplumber, MongoDB, S3, the
    clock) are an environment record [Env] of oracles: each either raises
    an exception or yields a value.  Python exceptions are the inductive
    [exn]; handler code runs in a state-and-exception monad [M] whose
    state keeps its changes when an exception is raised, as in Python. *)

From Stdlib Require Import Ascii String.
From stdpp Require Import base gmap list strings stringmap pretty.
From Stdlib Require Import Sorted.

Open Scope string_scope.

(* ------------------------------------------------------------------ *)
(** ** Bytes and strings *)

Abbreviation bytes := (list Byte.byte).

Global Instance byte_eq_dec : EqDecision Byte.byte := Byte.byte_eq_dec.

(** [b'%PDF-'] and [b'%%EOF'] *)
Definition pdf_header : bytes := list_byte_of_string "%PDF-".
Definition eof_marker : bytes := list_byte_of_string "%%EOF".

(** Python's [pat in data] on [bytes]. *)
Fixpoint bytes_contains (pat data : bytes) : bool :=
  bool_decide (take (length pat) data = pat) ||
  match data with
  | [] => false
  | _ :: data' => bytes_contains pat data'
  end.

(** [s.endswith(suf)] *)
Definition str_endswith (suf s : string) : bool :=
  Nat.leb (String.length suf) (String.length s) &&
  String.eqb (substring (String.length s - String.length suf)
                        (String.length suf) s) suf.

(** Characters for which Python's [str.isspace] holds, in the 8-bit range. *)
Definition py_isspace (c : ascii) : bool :=
  let n := nat_of_ascii c in
  (Nat.leb 9 n && Nat.leb n 13) || (Nat.leb 28 n && Nat.leb n 32)
  || Nat.eqb n 133 || Nat.eqb n 160.

Fixpoint py_lstrip (s : string) : string :=
  match s with
  | EmptyString => EmptyString
  | String c s' => if py_isspace c then py_lstrip s' else s
  end.

Fixpoint str_rev (s : string) : string :=
  match s with
  | EmptyString => EmptyString
  | String c s' => str_rev s' +:+ String c EmptyString
  end.

(** [s.strip()] *)
Definition py_strip (s : string) : string :=
  str_rev (py_lstrip (str_rev (py_lstrip s))).

(* ------------------------------------------------------------------ *)
(** ** Exceptions *)

(** A raised Python exception: FastAPI's [HTTPException] or any other
    exception, kept with its class name and its [str()]. *)
Inductive exn :=
| HTTPException (status_code : nat) (detail : string)
| PyError (cls : string) (msg : string).

(** [str(e)]: Starlette renders an [HTTPException] as
    ["{status_code}: {detail}"]. *)
Definition py_str (e : exn) : string :=
  match e with
  | HTTPException c d => pretty c +:+ ": " +:+ d
  | PyError _ m => m
  end.

(* ------------------------------------------------------------------ *)
(** ** Collaborators *)

(** A pdfplumber page: [page.extract_text()] and
    [page.extract_text(layout=True)]; either may raise, and [None] is the
    library returning no text. *)
Record page := {
  extract_plain : exn + option string;
  extract_layout : exn + option string
}.

Record Env := {
  pypdf_import : option exn;          (** [from pypdf import PdfReader] *)
  pypdf_is_encrypted : bytes -> exn + bool;  (** [PdfReader(p).is_encrypted] *)
  plumber_pages : bytes -> exn + list page;  (** [pdfplumber.open(p).pages] *)
  insert_error : option exn;          (** [insert_one] raises *)
  update_error : option exn;          (** [update_one] raises *)
  find_error : option exn;            (** [find_one] raises *)
  put_object_error : option exn;      (** [s3_client.put_object] raises *)
  utcnow : nat;                       (** [datetime.utcnow()] *)
  bucket_name : string;
  region_name : string
}.

(* ------------------------------------------------------------------ *)
(** ** PDFValidator (src/utils/validate_pdf.py) *)

Section Validator.
Variable E : Env.

(** [_check_pdf_structure]: header in the first 5 bytes, ["%%EOF"] in the
    last 1024.  [f.seek(-1024, os.SEEK_END)] raises [OSError] on a file
    shorter than 1024 bytes; the [except] turns it into [False]. *)
Definition check_pdf_structure (b : bytes) : bool :=
  if bool_decide (take 5 b = pdf_header) then
    if (length b <? 1024)%nat then false
    else bytes_contains eof_marker (drop (length b - 1024) b)
  else false.

Definition blank_reason : string :=
  "PDF page is blank or contains no extractable text".
Definition encrypted_reason : string :=
  "PDF is encrypted and cannot be processed".
Definition no_pages_reason : string := "PDF has no pages".
Definition structure_reason : string :=
  "PDF structure invalid: missing header or EOF marker".
Definition size_reason (min_file_size : nat) : string :=
  "File size is too small (less than " +:+ pretty min_file_size +:+ " bytes)".
Definition extension_reason : string := "File extension is not .pdf".

(** The pdfplumber part of [_check_pdf_content], inside its
    [try ... except Exception as e]. *)
Definition plumber_check (b : bytes) : bool * string :=
  match plumber_pages E b with
  | inl e => (false, "PDF content validation failed: " +:+ py_str e)
  | inr [] => (false, no_pages_reason)
  | inr (p :: _) =>
      match extract_plain p with
      | inl e => (false, "PDF content validation failed: " +:+ py_str e)
      | inr None => (false, blank_reason)
      | inr (Some text) =>
          if String.eqb (py_strip text) "" then (false, blank_reason)
          else (true, "PDF content is valid")
      end
  end.

(** [_check_pdf_content]: the import is outside any [try]; a failure of
    [PdfReader] is swallowed ([pass]) and pdfplumber decides. *)
Definition check_pdf_content (b : bytes) : exn + (bool * string) :=
  match pypdf_import E with
  | Some e => inl e
  | None =>
      match pypdf_is_encrypted E b with
      | inr true => inr (false, encrypted_reason)
      | _ => inr (plumber_check b)
      end
  end.

(** The checks after [os.path.isfile], on the file's bytes. *)
Definition is_valid_file (min_file_size : nat) (b : bytes) : exn + (bool * string) :=
  if (length b <? min_file_size)%nat then inr (false, size_reason min_file_size)
  else if negb (check_pdf_structure b) then inr (false, structure_reason)
  else match check_pdf_content b with
       | inl e => inl e
       | inr (false, msg) => inr (false, msg)
       | inr (true, _) => inr (true, "PDF is valid")
       end.

(** The body of [is_valid]'s [try] block. *)
Definition is_valid_body (min_file_size : nat) (fs : stringmap bytes)
    (file_path : string) : exn + (bool * string) :=
  match fs !! file_path with
  | None => inr (false, "File does not exist or is not a file")
  | Some b => is_valid_file min_file_size b
  end.

(** [is_valid]: every exception of the body is caught. *)
Definition is_valid (min_file_size : nat) (fs : stringmap bytes)
    (file_path : string) : exn + (bool * string) :=
  match is_valid_body min_file_size fs file_path with
  | inl e => inr (false, "PDF validation failed: " +:+ py_str e)
  | inr r => inr r
  end.

End Validator.

(* ------------------------------------------------------------------ *)
(** ** Request state *)

(** FastAPI's [UploadFile]: the client's file name and a byte stream with
    a read position. *)
Record upload_file := {
  uf_filename : string;
  uf_content : bytes;
  uf_pos : nat
}.

(** A record of the [document_details] collection. *)
Record doc := {
  filename : string;
  upload_time : nat;
  extracted_text : string;
  s3_uri : string
}.

(** Calls made on the MongoDB collection, in order. *)
Inductive db_op := DbInsert | DbUpdate | DbFind | DbCount | DbFindMany.

Record St := {
  st_upload : upload_file;        (** the request's upload stream *)
  st_fs : stringmap bytes;        (** the local file system *)
  st_db : gmap N doc;             (** the collection, by ObjectId *)
  st_next_oid : N;                (** the driver's ObjectId generator *)
  st_db_log : list db_op;
  st_s3 : stringmap bytes         (** the bucket's objects, by key *)
}.

Definition set_upload (f : upload_file) (s : St) : St :=
  {| st_upload := f; st_fs := st_fs s; st_db := st_db s;
     st_next_oid := st_next_oid s; st_db_log := st_db_log s; st_s3 := st_s3 s |}.
Definition set_fs (fs : stringmap bytes) (s : St) : St :=
  {| st_upload := st_upload s; st_fs := fs; st_db := st_db s;
     st_next_oid := st_next_oid s; st_db_log := st_db_log s; st_s3 := st_s3 s |}.
Definition set_db (db : gmap N doc) (s : St) : St :=
  {| st_upload := st_upload s; st_fs := st_fs s; st_db := db;
     st_next_oid := st_next_oid s; st_db_log := st_db_log s; st_s3 := st_s3 s |}.
Definition set_next_oid (n : N) (s : St) : St :=
  {| st_upload := st_upload s; st_fs := st_fs s; st_db := st_db s;
     st_next_oid := n; st_db_log := st_db_log s; st_s3 := st_s3 s |}.
Definition set_db_log (l : list db_op) (s : St) : St :=
  {| st_upload := st_upload s; st_fs := st_fs s; st_db := st_db s;
     st_next_oid := st_next_oid s; st_db_log := l; st_s3 := st_s3 s |}.
Definition set_s3 (o : stringmap bytes) (s : St) : St :=
  {| st_upload := st_upload s; st_fs := st_fs s; st_db := st_db s;
     st_next_oid := st_next_oid s; st_db_log := st_db_log s; st_s3 := o |}.

(* ------------------------------------------------------------------ *)
(** ** State and exception monad *)

Definition M (A : Type) : Type := St -> (exn + A) * St.

Definition ret {A} (x : A) : M A := fun s => (inr x, s).
Definition bind {A B} (m : M A) (k : A -> M B) : M B :=
  fun s => match m s with
           | (inl e, s') => (inl e, s')
           | (inr x, s') => k x s'
           end.
Definition raise {A} (e : exn) : M A := fun s => (inl e, s).
(** [try: m except Exception as e: h(e)] *)
Definition try_except {A} (m : M A) (h : exn -> M A) : M A :=
  fun s => match m s with
           | (inl e, s') => h e s'
           | r => r
           end.
Definition gets {A} (f : St -> A) : M A := fun s => (inr (f s), s).
Definition modify (f : St -> St) : M unit := fun s => (inr tt, f s).
Definition lift {A} (r : exn + A) : M A := fun s => (r, s).

Notation "x <- m ;; k" := (bind m (fun x => k))
  (at level 100, m at next level, right associativity).
Notation "m ;; k" := (bind m (fun _ => k)) (at level 100, right associativity).

(** [await upload_file.read()]: the rest of the stream from its position. *)
Definition read_upload : M bytes :=
  fun s => let f := st_upload s in
    (inr (drop (uf_pos f) (uf_content f)),
     set_upload {| uf_filename := uf_filename f; uf_content := uf_content f;
                   uf_pos := length (uf_content f) |} s).

(** [await upload_file.seek(0)] and [file.file.seek(0)] *)
Definition seek0 : M unit :=
  modify (fun s => let f := st_upload s in
    set_upload {| uf_filename := uf_filename f; uf_content := uf_content f;
                  uf_pos := 0 |} s).

Definition modify_fs (f : stringmap bytes -> stringmap bytes) : M unit :=
  modify (fun s => set_fs (f (st_fs s)) s).

(* ------------------------------------------------------------------ *)
(** ** ObjectId *)

(** An ObjectId is 12 bytes; [str(oid)] is 24 lower-case hex digits. *)
Definition hex_digit (n : N) : ascii :=
  ascii_of_N (if (n <? 10)%N then 48 + n else 87 + n)%N.

Fixpoint hex_fixed (k : nat) (n : N) : string :=
  match k with
  | O => ""
  | S k' => hex_fixed k' (n / 16)%N +:+ String (hex_digit (n mod 16)%N) ""
  end.

Definition oid_str (o : N) : string := hex_fixed 24 o.

(* ------------------------------------------------------------------ *)
(** ** Collaborator calls *)

Section Calls.
Variable E : Env.

Definition log_db (op : db_op) : M unit :=
  modify (fun s => set_db_log (st_db_log s ++ [op]) s).

Definition raise_opt (o : option exn) : M unit :=
  match o with Some e => raise e | None => ret tt end.

(** [collection.insert_one(d)]: the driver assigns a fresh ObjectId. *)
Definition insert_one (d : doc) : M N :=
  log_db DbInsert ;;
  raise_opt (insert_error E) ;;
  oid <- gets st_next_oid ;;
  modify (set_next_oid (N.succ oid)) ;;
  db <- gets st_db ;;
  match db !! oid with
  | Some _ => raise (PyError "DuplicateKeyError" "E11000 duplicate key error")
  | None => modify (set_db (<[oid := d]> db)) ;; ret oid
  end.

(** [collection.update_one({"_id": oid}, {"$set": ...})].modified_count *)
Definition update_one (oid : N) (text uri : string) : M nat :=
  log_db DbUpdate ;;
  raise_opt (update_error E) ;;
  db <- gets st_db ;;
  match db !! oid with
  | None => ret 0%nat
  | Some d =>
      if String.eqb (extracted_text d) text && String.eqb (s3_uri d) uri
      then ret 0%nat
      else modify (set_db (<[oid := {| filename := filename d;
                                        upload_time := upload_time d;
                                        extracted_text := text;
                                        s3_uri := uri |}]> db)) ;; ret 1%nat
  end.

(** [collection.find_one({"_id": oid})] *)
Definition find_one (oid : N) : M (option doc) :=
  log_db DbFind ;;
  raise_opt (find_error E) ;;
  db <- gets st_db ;;
  ret (db !! oid).

(** [s3_client.put_object(Bucket=..., Key=key, Body=content)] *)
Definition put_object (key : string) (content : bytes) : M unit :=
  raise_opt (put_object_error E) ;;
  modify (fun s => set_s3 (<[key := content]> (st_s3 s)) s).

End Calls.

(* ------------------------------------------------------------------ *)
(** ** PDFValidator.is_valid_upload *)

Section Handlers.
Variable E : Env.

(** [tempfile.NamedTemporaryFile(delete=False)] picks a name that is not
    taken yet. *)
Definition temp_name (fs : stringmap bytes) : string := fresh_string "/tmp/tmp" fs.

Definition is_valid_upload (min_file_size : nat) : M (bool * string) :=
  f <- gets st_upload ;;
  if negb (str_endswith ".pdf" (uf_filename f)) then ret (false, extension_reason)
  else
    fs <- gets st_fs ;;
    let temp_path := temp_name fs in
    modify_fs (<[temp_path := []]>) ;;
    content <- read_upload ;;
    modify_fs (<[temp_path := content]>) ;;
    seek0 ;;
    fs' <- gets st_fs ;;
    r <- lift (is_valid E min_file_size fs' temp_path) ;;
    modify_fs (delete temp_path) ;;
    ret r.

(* ------------------------------------------------------------------ *)
(** ** S3Service.upload_file_to_s3 *)

Definition s3_key_of (doc_id : N) : string := "documents/" +:+ oid_str doc_id +:+ ".pdf".

(** [ObjectId.is_valid(doc_id)] holds for the [ObjectId] the handler
    passes, so the guard never raises. *)
Definition upload_file_to_s3 (doc_id : N) : M string :=
  try_except
    (let s3_key := s3_key_of doc_id in
     content <- read_upload ;;
     put_object E s3_key content ;;
     ret ("https://" +:+ bucket_name E +:+ ".s3." +:+ region_name E
          +:+ ".amazonaws.com/" +:+ s3_key))
    (fun e => raise (HTTPException 500 ("Upload to S3 failed: " +:+ py_str e))).

(* ------------------------------------------------------------------ *)
(** ** PDFExtractor.extract_text *)

Definition blank_line : string := String "010" (String "010" EmptyString).

(** The [for page in pdf.pages] loop: [if page_text: text += page_text + '\n\n']. *)
Fixpoint extract_pages (text : string) (pages : list page) : exn + string :=
  match pages with
  | [] => inr text
  | p :: ps =>
      match extract_layout p with
      | inl e => inl e
      | inr page_text =>
          let text' := match page_text with
                       | Some t => if String.eqb t "" then text else text +:+ t +:+ blank_line
                       | None => text
                       end in
          extract_pages text' ps
      end
  end.

(** [pdfplumber.open(file.file)] reads the stream (the handler seeks it
    to the start just before). *)
Definition extract_text : M string :=
  content <- read_upload ;;
  match plumber_pages E content with
  | inl e => raise e
  | inr pages => lift (extract_pages "" pages)
  end.

(* ------------------------------------------------------------------ *)
(** ** POST /upload *)

Definition upload_message : string :=
  "PDF File uploaded to s3 and text extracted successfully".

(** The body of [upload_pdf]'s [try] block: steps 1 to 7. *)
Definition upload_steps : M (string * string) :=
  f <- gets st_upload ;;
  let initial_doc := {| filename := uf_filename f; upload_time := utcnow E;
                        extracted_text := ""; s3_uri := "" |} in
  doc_id <- insert_one E initial_doc ;;
  s3_url <- upload_file_to_s3 doc_id ;;
  seek0 ;;
  extracted <- extract_text ;;
  modified <- update_one E doc_id extracted s3_url ;;
  if Nat.eqb modified 0 then
    raise (HTTPException 500 "Failed to update document in database.")
  else
    final_doc <- find_one E doc_id ;;
    match final_doc with
    | None => raise (PyError "TypeError" "'NoneType' object is not subscriptable")
    | Some _ => ret (oid_str doc_id, upload_message)
    end.

(** [upload_pdf]; its result is the JSON body [{doc_id, message}]. *)
Definition upload_pdf (min_file_size : nat) : M (string * string) :=
  v <- is_valid_upload min_file_size ;;
  let (is_valid, error_message) := v in
  if negb is_valid then raise (HTTPException 400 error_message)
  else try_except upload_steps
         (fun e => raise (HTTPException 500 ("Upload to s3 failed: " +:+ py_str e))).

(* ------------------------------------------------------------------ *)
(** ** GET /documents/{doc_id} *)

(** [ObjectId(doc_id)]: [None] when the constructor raises. *)
Variable object_id : string -> option N.

Record doc_response := {
  r_doc_id : string;
  r_filename : string;
  r_upload_time : nat;
  r_extracted_text : string
}.

Definition get_document (doc_id : string) : M doc_response :=
  match object_id doc_id with
  | None => raise (HTTPException 400 "Invalid ObjectId format")
  | Some oid =>
      document <- find_one E oid ;;
      match document with
      | None => raise (HTTPException 404 "Document not found")
      | Some d => ret {| r_doc_id := oid_str oid; r_filename := filename d;
                         r_upload_time := upload_time d;
                         r_extracted_text := extracted_text d |}
      end
  end.

End Handlers.

(* ------------------------------------------------------------------ *)
(** ** GET /documents *)

Record list_item := {
  li_doc_id : string;
  li_filename : string;
  li_upload_time : nat;
  li_text_preview : string
}.

Record pagination := {
  pg_total : Z;
  pg_page : Z;
  pg_limit : Z;
  pg_pages : Z;
  pg_has_next : bool;
  pg_has_prev : bool
}.

(** [.sort("upload_time", -1)]: newest first. *)
Fixpoint insert_desc (x : N * doc) (l : list (N * doc)) : list (N * doc) :=
  match l with
  | [] => [x]
  | y :: l' =>
      if Nat.leb (upload_time (snd y)) (upload_time (snd x)) then x :: l
      else y :: insert_desc x l'
  end.

Definition sort_desc (l : list (N * doc)) : list (N * doc) := foldr insert_desc [] l.

(** [collection.count_documents({})] *)
Definition count_documents : M Z :=
  log_db DbCount ;;
  db <- gets st_db ;;
  ret (Z.of_nat (size db)).

(** Newest first. *)
Definition newest_first : nat -> nat -> Prop := fun a b => (b <= a)%nat.

Abbreviation times l := (map (fun r : N * doc => upload_time (snd r)) l).

(** The largest BSON int64. *)
Definition int64_max : Z := (2 ^ 63 - 1)%Z.

(** [.sort("upload_time", -1)] on the server: the records newest first,
    records with equal [upload_time] in an order of the server's choosing,
    which may differ from one query to the next.  An order the server may
    use is a function [srt] from the collection to such a listing. *)
Definition by_upload_time (srt : list (N * doc) -> list (N * doc)) : Prop :=
  forall l, srt l ≡ₚ l /\ Sorted newest_first (times (srt l)).

(** [collection.find({}).sort("upload_time", -1).skip(skip).limit(limit)],
    the server ordering the collection by [srt]; the driver encodes [skip]
    as a BSON int64 and raises [OverflowError] (the C extension's message)
    before sending a larger one. *)
Definition find_page (srt : list (N * doc) -> list (N * doc)) (skip limit : Z)
    : M (list (N * doc)) :=
  if (int64_max <? skip)%Z then
    raise (PyError "OverflowError" "MongoDB can only handle up to 8-byte ints")
  else
    log_db DbFindMany ;;
    db <- gets st_db ;;
    ret (take (Z.to_nat limit) (drop (Z.to_nat skip) (srt (map_to_list db)))).

(** [doc.get("extracted_text", "")[:100] + "..." if doc.get("extracted_text") else ""] *)
Definition text_preview (t : string) : string :=
  if String.eqb t "" then "" else substring 0 100 t +:+ "...".

Definition to_item (r : N * doc) : list_item :=
  {| li_doc_id := oid_str (fst r); li_filename := filename (snd r);
     li_upload_time := upload_time (snd r);
     li_text_preview := text_preview (extracted_text (snd r)) |}.

(** [get_documents]; FastAPI answers 422 when [Query(ge=1)] or
    [Query(ge=1, le=100)] is violated. *)
Definition get_documents (srt : list (N * doc) -> list (N * doc)) (page limit : Z)
    : M (list list_item * pagination) :=
  if negb ((1 <=? page) && (1 <=? limit) && (limit <=? 100))%Z then
    raise (HTTPException 422 "Unprocessable Entity")
  else
    let skip := ((page - 1) * limit)%Z in
    total_docs <- count_documents ;;
    docs <- find_page srt skip limit ;;
    let total_pages := ((total_docs + limit - 1) / limit)%Z in
    ret (map to_item docs,
         {| pg_total := total_docs; pg_page := page; pg_limit := limit;
            pg_pages := total_pages; pg_has_next := (page <? total_pages)%Z;
            pg_has_prev := (page >? 1)%Z |}).

(* ------------------------------------------------------------------ *)
(** ** LLMService.generate_content (src/services/llm_service.py) *)

(** [self.model.generate_content(final_prompt).text]: the Gemini call
    either raises or yields the response's text. *)
Definition llm_model : Type := string -> exn + string.

Definition generate_content (model : llm_model) (final_prompt : string) : exn + string :=
  match model final_prompt with
  | inl e => inl (PyError "Exception" ("LLM generation failed: " +:+ py_str e))
  | inr text => inr text
  end.

(* ------------------------------------------------------------------ *)
(** ** JWTAuth (src/utils/auth.py) *)

(** Values a token payload holds; a [datetime] or a [timedelta] is a
    count of microseconds. *)
Inductive pyval := PyStr (s : string) | PyInt (z : Z) | PyDatetime (t : Z).

(** A Python [dict], in insertion order. *)
Abbreviation pydict := (list (string * pyval)).

(** [d.update({k: v})]: an existing key keeps its place. *)
Definition dict_set (k : string) (v : pyval) (d : pydict) : pydict :=
  if existsb (fun kv => String.eqb (fst kv) k) d
  then map (fun kv => if String.eqb (fst kv) k then (k, v) else kv) d
  else app d [(k, v)].

Fixpoint dict_get (k : string) (d : pydict) : option pyval :=
  match d with
  | [] => None
  | (k', v) :: d' => if String.eqb k' k then Some v else dict_get k d'
  end.

(** The Python objects a call can reach: dicts by address. *)
Abbreviation heap := (gmap positive pydict).

Definition minutes_to_us (m : Z) : Z := (m * 60 * 1000000)%Z.

Definition us_per_day : Z := 86400000000%Z.

(** [datetime.min] (0001-01-01) and [datetime.max] (9999-12-31
    23:59:59.999999), in microseconds since 1970-01-01. *)
Definition datetime_min_us : Z := (-62135596800 * 1000000)%Z.
Definition datetime_max_us : Z := (253402300799 * 1000000 + 999999)%Z.

(** [timedelta(minutes=m)]: CPython refuses a day count [floor(us / day)]
    of magnitude above 999999999 with [OverflowError]; the message,
    [td_msg days], depends on the interpreter. *)
Definition timedelta_minutes (td_msg : Z -> string) (m : Z) : exn + Z :=
  let us := minutes_to_us m in
  let days := (us / us_per_day)%Z in
  if (Z.abs days <=? 999999999)%Z then inr us
  else inl (PyError "OverflowError" (td_msg days)).

(** [expires_delta or timedelta(minutes=JWT_ACCESS_TOKEN_EXPIRE_MINUTES)]:
    a zero [timedelta] is falsy. *)
Definition effective_delta (td_msg : Z -> string) (expire_minutes : Z)
    (expires_delta : option Z) : exn + Z :=
  match expires_delta with
  | Some d => if Z.eqb d 0 then timedelta_minutes td_msg expire_minutes else inr d
  | None => timedelta_minutes td_msg expire_minutes
  end.

(** python-jose's [jwt.encode] first rewrites, in the claims dict itself,
    each of ["exp"], ["iat"], ["nbf"] that holds a [datetime] into the
    integer [timegm(v.utctimetuple())], whole seconds since the epoch. *)
Definition jose_time_claim (k : string) (d : pydict) : pydict :=
  match dict_get k d with
  | Some (PyDatetime t) => dict_set k (PyInt (t / 1000000)) d
  | _ => d
  end.

Definition jose_time_claims (d : pydict) : pydict :=
  jose_time_claim "nbf" (jose_time_claim "iat" (jose_time_claim "exp" d)).

(** [create_access_token(data, expires_delta)]: [data] is the address of
    the caller's dict, or [None]; [data or {}] keeps the caller's dict
    when it is non-empty and allocates a new one otherwise; [now] is
    [datetime.utcnow()], and [now + delta] outside the [datetime] range
    raises [OverflowError]; [jwt.encode] converts the time claims in
    place and then signs with [jws.sign], here [sign], which may raise. *)
Definition create_access_token (sign : pydict -> exn + string) (td_msg : Z -> string)
    (expire_minutes now : Z) (h : heap) (data : option positive)
    (expires_delta : option Z) : (exn + string) * heap :=
  let fresh_obj := fresh (dom h) in
  let (r, h1) := match data with
                 | Some r => match h !! r with
                             | Some (_ :: _) => (r, h)
                             | _ => (fresh_obj, <[fresh_obj := []]> h)
                             end
                 | None => (fresh_obj, <[fresh_obj := []]> h)
                 end in
  match effective_delta td_msg expire_minutes expires_delta with
  | inl e => (inl e, h1)
  | inr delta =>
      let expire := (now + delta)%Z in
      if ((expire <? datetime_min_us) || (datetime_max_us <? expire))%Z then
        (inl (PyError "OverflowError" "date value out of range"), h1)
      else
        let to_encode := dict_set "exp" (PyDatetime expire) (default [] (h1 !! r)) in
        let claims := jose_time_claims to_encode in
        (sign claims, <[r := claims]> h1)
  end.

(** [verify_token]: [jwt.decode] is [decode], [None] when it raises
    [JWTError]. *)
Definition verify_token (decode : string -> option pydict) (credentials : string)
    : exn + pydict :=
  match decode credentials with
  | None => inl (HTTPException 401 "Invalid token or expired token")
  | Some payload => inr payload
  end.

(** [generate_token]: [{"access_token": token, "token_type": "bearer"}]. *)
Definition generate_token (sign : pydict -> exn + string) (td_msg : Z -> string)
    (expire_minutes now : Z) (h : heap) : (exn + (string * string)) * heap :=
  let (res, h') := create_access_token sign td_msg expire_minutes now h None None in
  (match res with
   | inl e => inl e
   | inr token => inr (token, "bearer")
   end, h').

(* ------------------------------------------------------------------ *)
(** ** POST /summarize/{doc_id} and POST /query/{doc_id}/{question} *)

Section LLMRoutes.
Variable E : Env.
Variable model : llm_model.
Variable object_id : string -> option N.

(** [pdf_content = document.get("extracted_text", "")] and the guard
    [if not pdf_content]; the record found for a well-formed id. *)
Definition document_text (doc_id : string) : M string :=
  match object_id doc_id with
  | None => raise (HTTPException 400 "Invalid ObjectId format")
  | Some oid =>
      document <- find_one E oid ;;
      match document with
      | None => raise (HTTPException 404 "Document not found")
      | Some d =>
          if String.eqb (extracted_text d) "" then
            raise (HTTPException 400 "Document has no extracted text")
          else ret (extracted_text d)
      end
  end.

Definition summarize_prefix : string :=
  "Summarize the following content in 2 sentences:" +:+ blank_line.

(** [summarize_document]: the [verify_token] dependency runs first, on
    the outcome of FastAPI's [HTTPBearer] ([credentials]). *)
Definition summarize_document (decode : string -> option pydict)
    (credentials : exn + string) (doc_id : string) : M (string * string) :=
  match credentials with
  | inl e => raise e
  | inr token =>
      match verify_token decode token with
      | inl e => raise e
      | inr _ =>
          pdf_content <- document_text doc_id ;;
          let final_prompt := summarize_prefix +:+ pdf_content in
          match generate_content model final_prompt with
          | inl e => raise (HTTPException 500 ("Summarization failed: " +:+ py_str e))
          | inr response => ret (doc_id, response)
          end
      end
  end.

End LLMRoutes.

(** [s.find(sub)] *)
Definition py_find (sub s : string) : Z :=
  match index 0 sub s with
  | Some n => Z.of_nat n
  | None => (-1)%Z
  end.

(** [s[i:]] *)
Definition py_slice_from (s : string) (i : Z) : string :=
  let n := Z.of_nat (String.length s) in
  let start := if (i <? 0)%Z then Z.max 0 (n + i) else Z.min i n in
  substring (Z.to_nat start) (Z.to_nat (n - start)) s.

(** The raw question: the request path after ["/query/{doc_id}/"], then
    ["?" + query] when the URL has a query string. *)
Definition raw_question (path query doc_id : string) : string :=
  let prefix := "/query/" +:+ doc_id +:+ "/" in
  let idx := (py_find prefix path + Z.of_nat (String.length prefix))%Z in
  let raw := py_slice_from path idx in
  if String.eqb query "" then raw else raw +:+ "?" +:+ query.

Definition query_prompt (question pdf_content : string) : string :=
  "Answer the following question based on the document content:" +:+ blank_line
  +:+ "Question: " +:+ question +:+ blank_line +:+ "Document:"
  +:+ blank_line +:+ pdf_content.

(** [query_document] (no token dependency); [urllib.parse.unquote] is
    [unquote].  The result is [{doc_id, question, answer}]. *)
Definition query_document E (model : llm_model) (object_id : string -> option N)
    (unquote : string -> string) (path query doc_id : string)
    : M (string * string * string) :=
  let full_question := unquote (raw_question path query doc_id) in
  pdf_content <- document_text E object_id doc_id ;;
  match generate_content model (query_prompt full_question pdf_content) with
  | inl e => raise (HTTPException 500 ("Query failed: " +:+ py_str e))
  | inr response => ret (doc_id, full_question, response)
  end.

(* ------------------------------------------------------------------ *)
(** ** S3Service.__init__ (src/services/s3_service.py) *)

(** Python's [a or b] on an optional string. *)
Definition py_or (a b : option string) : option string :=
  match a with
  | Some s => if String.eqb s "" then b else a
  | None => b
  end.

(** [S3Service.__init__]: the bucket and region attributes;
    [S3_BUCKET_NAME] and [AWS_REGION] are the settings read from the
    environment.  After the bucket check the constructor calls
    [boto3.client('s3', ..., region_name=region_name or AWS_REGION)], whose
    outcome is [client_error]: the error it raises (for instance
    [ValueError] for a region it refuses), or [None] when it returns a
    client. *)
Definition s3_service_init (client_error : option exn)
    (bucket_name_arg region_name_arg : option string)
    (S3_BUCKET_NAME AWS_REGION : option string) : exn + (string * option string) :=
  let bucket := py_or bucket_name_arg S3_BUCKET_NAME in
  let region := py_or region_name_arg AWS_REGION in
  match bucket with
  | Some b =>
      if String.eqb b "" then inl (PyError "ValueError" "S3 bucket name must be provided")
      else match client_error with
           | Some e => inl e
           | None => inr (b, region)
           end
  | None => inl (PyError "ValueError" "S3 bucket name must be provided")
  end.

(* ------------------------------------------------------------------ *)
(** ** Logger (src/utils/logger.py) and helpers (src/utils/helpers.py) *)

(** [s.rfind(c)]: the last index of [c], or -1. *)
Fixpoint py_rfind (c : ascii) (s : string) : Z :=
  match s with
  | EmptyString => (-1)%Z
  | String x s' =>
      let k := py_rfind c s' in
      if (0 <=? k)%Z then (k + 1)%Z
      else if ascii_dec x c then 0%Z else (-1)%Z
  end.

(** [os.path.basename(p)]: [p[p.rfind('/') + 1:]]. *)
Definition py_basename (p : string) : string :=
  py_slice_from p (py_rfind "/" p + 1).

(** The file the logger writes to, [None] when [log_file] is empty (no
    file handler); [in_lambda] is [AWS_LAMBDA_FUNCTION_NAME in os.environ]. *)
Definition log_file_path (in_lambda : bool) (log_file : string) : option string :=
  if String.eqb log_file "" then None
  else if in_lambda then
    let log_filename := if String.prefix "/" log_file then py_basename log_file
                        else py_basename log_file in
    Some ("/tmp/" +:+ log_filename)
  else Some log_file.

(** [str.lower] on the 8-bit range. *)
Definition py_lower_char (c : ascii) : ascii :=
  let n := nat_of_ascii c in
  if (Nat.leb 65 n && Nat.leb n 90) || (Nat.leb 192 n && Nat.leb n 222 && negb (Nat.eqb n 215))
  then ascii_of_nat (n + 32) else c.

Fixpoint py_lower (s : string) : string :=
  match s with
  | EmptyString => EmptyString
  | String c s' => String (py_lower_char c) (py_lower s')
  end.

(** [s[i:i+1]] is a character other than [c]. *)
Definition char_is_not (c : ascii) (s : string) (i : nat) : bool :=
  match String.get i s with
  | Some x => if ascii_dec x c then false else true
  | None => true
  end.

(** [genericpath._splitext(p, '/', None, '.')][1]: the extension starts at
    the last dot, if it is after the last slash and some character between
    them (the leading dots of the name skipped) is not a dot. *)
Definition splitext_ext (p : string) : string :=
  let sepIndex := py_rfind "/" p in
  let dotIndex := py_rfind "." p in
  if (sepIndex <? dotIndex)%Z then
    let filenameIndex := Z.to_nat (sepIndex + 1) in
    if existsb (char_is_not "." p) (seq filenameIndex (Z.to_nat dotIndex - filenameIndex))
    then py_slice_from p dotIndex
    else ""
  else "".

(** [get_file_extension] *)
Definition get_file_extension (filename : string) : string :=
  py_lower (splitext_ext filename).

(* ================================================================== *)
(** * Properties *)

(** ** Concrete inputs used by the examples and witnesses *)

Definition sample_pdf : bytes := pdf_header ++ repeat Byte.x78 1100 ++ eof_marker.

Definition text_page (t : string) : page :=
  {| extract_plain := inr (Some t); extract_layout := inr (Some t) |}.

Definition env_with (enc : bytes -> exn + bool) (pages : bytes -> exn + list page)
    (ins : option exn) : Env :=
  {| pypdf_import := None; pypdf_is_encrypted := enc; plumber_pages := pages;
     insert_error := ins; update_error := None; find_error := None;
     put_object_error := None; utcnow := 7; bucket_name := "bkt";
     region_name := "us-east-1" |}.

Definition env_ok : Env := env_with (fun _ => inr false) (fun _ => inr [text_page "Hello"]) None.

Definition st_with (name : string) (content : bytes) : St :=
  {| st_upload := {| uf_filename := name; uf_content := content; uf_pos := 0 |};
     st_fs := ∅; st_db := ∅; st_next_oid := 255%N; st_db_log := []; st_s3 := ∅ |}.

Example sample_upload_ok :
  fst (upload_pdf env_ok 1024 (st_with "a.pdf" sample_pdf))
  = inr ("0000000000000000000000ff", upload_message).
Proof. vm_compute. reflexivity. Qed.

Example size_reason_1024 :
  size_reason 1024 = "File size is too small (less than 1024 bytes)".
Proof. vm_compute. reflexivity. Qed.

(** ** Validator *)

(** C6: a file shorter than the minimum size is rejected with the size
    reason, whatever its content: the size check short-circuits the
    structural and content checks. *)
Theorem is_valid_small_file E (min_file_size : nat) (fs : stringmap bytes)
    (file_path : string) (b : bytes) :
  fs !! file_path = Some b ->
  (length b < min_file_size)%nat ->
  is_valid E min_file_size fs file_path = inr (false, size_reason min_file_size).
Proof.
  intros Hb Hlt. unfold is_valid, is_valid_body, is_valid_file. rewrite Hb.
  apply Nat.ltb_lt in Hlt. rewrite Hlt. reflexivity.
Qed.

Lemma is_valid_small_file_witness :
  (length (take 500 sample_pdf) < 1024)%nat /\
  is_valid env_ok 1024 {[ "/tmp/f" := take 500 sample_pdf ]} "/tmp/f"
  = inr (false, size_reason 1024).
Proof.
  split; [vm_compute; lia |].
  apply (is_valid_small_file env_ok 1024 _ "/tmp/f" (take 500 sample_pdf)).
  - reflexivity.
  - vm_compute; lia.
Defined.

(** A pypdf parse failure. *)
Definition pdf_read_error : exn := PyError "PdfReadError" "EOF marker not found".

Definition env_pypdf_fails : Env :=
  env_with (fun _ => inl pdf_read_error) (fun _ => inr [text_page "Hello"]) None.

(** C7, as stated, fails: a parse failure in the encryption probe (check 7)
    is swallowed, and when pdfplumber reads the file the verdict is
    positive. *)
Lemma is_valid_pypdf_failure_ignored :
  pypdf_is_encrypted env_pypdf_fails sample_pdf = inl pdf_read_error /\
  is_valid env_pypdf_fails 1024 {[ "/tmp/f" := sample_pdf ]} "/tmp/f"
  = inr (true, "PDF is valid").
Proof. split; vm_compute; reflexivity. Qed.

(** C7 (amended): [is_valid] never raises.  After the size and structure
    checks pass, a failure of the pypdf import or of pdfplumber (opening,
    listing pages, first-page extraction) gives a negative result carrying
    the exception's message, while a parse failure of pypdf's encryption
    probe is ignored and the pdfplumber checks decide. *)
Theorem is_valid_total E (min_file_size : nat) (fs : stringmap bytes)
    (file_path : string) :
  (exists r, is_valid E min_file_size fs file_path = inr r) /\
  (forall b, fs !! file_path = Some b ->
     (min_file_size <= length b)%nat -> check_pdf_structure b = true ->
     (forall e, pypdf_import E = Some e ->
        is_valid E min_file_size fs file_path
        = inr (false, "PDF validation failed: " +:+ py_str e)) /\
     (forall e, pypdf_import E = None -> pypdf_is_encrypted E b <> inr true ->
        plumber_pages E b = inl e ->
        is_valid E min_file_size fs file_path
        = inr (false, "PDF content validation failed: " +:+ py_str e)) /\
     (forall e p ps, pypdf_import E = None -> pypdf_is_encrypted E b <> inr true ->
        plumber_pages E b = inr (p :: ps) -> extract_plain p = inl e ->
        is_valid E min_file_size fs file_path
        = inr (false, "PDF content validation failed: " +:+ py_str e)) /\
     (forall e, pypdf_import E = None -> pypdf_is_encrypted E b = inl e ->
        is_valid E min_file_size fs file_path
        = inr (if fst (plumber_check E b) then (true, "PDF is valid")
               else plumber_check E b))).
Proof.
  split.
  { unfold is_valid. destruct (is_valid_body _ _ _ _); eauto. }
  intros b Hb Hsz Hst.
  assert (Hbody : is_valid E min_file_size fs file_path
    = match check_pdf_content E b with
      | inl e => inr (false, "PDF validation failed: " +:+ py_str e)
      | inr (false, msg) => inr (false, msg)
      | inr (true, _) => inr (true, "PDF is valid")
      end).
  { unfold is_valid, is_valid_body, is_valid_file. rewrite Hb.
    replace (length b <? min_file_size)%nat with false
      by (symmetry; apply Nat.ltb_ge; lia).
    rewrite Hst. simpl.
    destruct (check_pdf_content E b) as [e|[[] msg]]; reflexivity. }
  rewrite Hbody. unfold check_pdf_content.
  split; [intros e He; rewrite He; reflexivity |].
  split; [intros e Hi Henc Hp; rewrite Hi;
          destruct (pypdf_is_encrypted E b) as [|[]]; try congruence;
          unfold plumber_check; rewrite Hp; reflexivity |].
  split; [intros e p ps Hi Henc Hp He; rewrite Hi;
          destruct (pypdf_is_encrypted E b) as [|[]]; try congruence;
          unfold plumber_check; rewrite Hp, He; reflexivity |].
  intros e Hi Henc. rewrite Hi, Henc.
  destruct (plumber_check E b) as [[] msg]; reflexivity.
Qed.

Lemma is_valid_total_witness :
  is_valid env_pypdf_fails 1024 {[ "/tmp/f" := sample_pdf ]} "/tmp/f"
  = inr (if fst (plumber_check env_pypdf_fails sample_pdf) then (true, "PDF is valid")
         else plumber_check env_pypdf_fails sample_pdf).
Proof.
  destruct (is_valid_total env_pypdf_fails 1024 {[ "/tmp/f" := sample_pdf ]} "/tmp/f")
    as [_ H].
  destruct (H sample_pdf) as (_ & _ & _ & H4);
    [vm_compute; reflexivity | vm_compute; lia | vm_compute; reflexivity |].
  apply (H4 pdf_read_error); reflexivity.
Defined.

(** ** Validation of an upload *)

(** The verdict [is_valid] returns on a file holding [b]. *)
Definition validation_verdict E (min_file_size : nat) (b : bytes) : bool * string :=
  match is_valid_file E min_file_size b with
  | inl e => (false, "PDF validation failed: " +:+ py_str e)
  | inr r => r
  end.

Lemma is_valid_at E (min_file_size : nat) (fs : stringmap bytes) (path : string)
    (b : bytes) :
  fs !! path = Some b ->
  is_valid E min_file_size fs path = inr (validation_verdict E min_file_size b).
Proof.
  intros H. unfold is_valid, is_valid_body, validation_verdict. rewrite H.
  destruct (is_valid_file E min_file_size b); reflexivity.
Qed.

Definition rewound (f : upload_file) : upload_file :=
  {| uf_filename := uf_filename f; uf_content := uf_content f; uf_pos := 0 |}.

(** One run of [is_valid_upload]: the verdict on the bytes read from the
    stream; the stream rewound; the temporary file gone. *)
Lemma is_valid_upload_run E (min_file_size : nat) (st : St) :
  is_valid_upload E min_file_size st =
  if str_endswith ".pdf" (uf_filename (st_upload st)) then
    (inr (validation_verdict E min_file_size
            (drop (uf_pos (st_upload st)) (uf_content (st_upload st)))),
     set_upload (rewound (st_upload st)) st)
  else (inr (false, extension_reason), st).
Proof.
  destruct st as [[fn c pos] fs db n log s3].
  unfold is_valid_upload, bind, gets, ret, modify_fs, modify, read_upload, seek0, lift.
  simpl. destruct (str_endswith ".pdf" fn); simpl; [|reflexivity].
  rewrite (is_valid_at _ _ _ _ (drop pos c)) by (by rewrite lookup_insert_eq).
  simpl. unfold set_upload, rewound. simpl.
  rewrite insert_insert_eq, delete_insert_eq, delete_id; [reflexivity |].
  apply fresh_string_fresh.
Qed.

(** With the stream at its start, [is_valid_upload] leaves the whole
    state as it found it. *)
Lemma is_valid_upload_restores_state E (min_file_size : nat) (st : St) :
  uf_pos (st_upload st) = 0%nat ->
  exists verdict, is_valid_upload E min_file_size st = (inr verdict, st).
Proof.
  intros Hpos. rewrite is_valid_upload_run.
  destruct (str_endswith ".pdf" (uf_filename (st_upload st))); eauto.
  eexists. f_equal.
  destruct st as [[fn c pos] fs db n log s3]. simpl in *. subst pos. reflexivity.
Qed.

(** ** A successful upload *)

Definition s3_url (E : Env) (doc_id : N) : string :=
  "https://" +:+ bucket_name E +:+ ".s3." +:+ region_name E
  +:+ ".amazonaws.com/" +:+ s3_key_of doc_id.

Lemma bind_inr {A B} (m : M A) (k : A -> M B) (s s' : St) (b : B) :
  bind m k s = (inr b, s') -> exists a s1, m s = (inr a, s1) /\ k a s1 = (inr b, s').
Proof. unfold bind. destruct (m s) as [[e|a] s1]; [discriminate | eauto]. Qed.

Lemma try_raise_inr {A} (m : M A) (h : exn -> exn) (s s' : St) (b : A) :
  try_except m (fun e => raise (h e)) s = (inr b, s') -> m s = (inr b, s').
Proof. unfold try_except, raise. destruct (m s) as [[e|a] s1]; [discriminate | auto]. Qed.

Lemma insert_one_ok E (d : doc) (s s1 : St) (oid : N) :
  insert_one E d s = (inr oid, s1) ->
  st_db s !! oid = None /\ st_db s1 = <[oid := d]> (st_db s) /\
  st_upload s1 = st_upload s /\ st_s3 s1 = st_s3 s.
Proof.
  destruct s as [u fs db n log s3]. intros H.
  unfold insert_one, log_db, raise_opt, bind, gets, modify, ret, raise in H.
  destruct (insert_error E); simpl in H; [discriminate |].
  destruct (db !! n) eqn:Hn; simpl in H; [discriminate |].
  injection H as <- <-. simpl. auto.
Qed.

Lemma upload_file_to_s3_ok E (oid : N) (s s1 : St) (url : string) :
  upload_file_to_s3 E oid s = (inr url, s1) ->
  url = s3_url E oid /\
  st_s3 s1 = <[s3_key_of oid := drop (uf_pos (st_upload s)) (uf_content (st_upload s))]>
               (st_s3 s) /\
  st_db s1 = st_db s /\ uf_content (st_upload s1) = uf_content (st_upload s) /\
  uf_filename (st_upload s1) = uf_filename (st_upload s).
Proof.
  intros H. apply try_raise_inr in H.
  destruct s as [[fn c pos] fs db n log s3].
  unfold put_object, read_upload, raise_opt, bind, gets, modify, ret, raise in H.
  destruct (put_object_error E); simpl in H; [discriminate |].
  injection H as <- <-. simpl. auto.
Qed.

Lemma extract_text_ok E (s s1 : St) (text : string) :
  extract_text E s = (inr text, s1) ->
  (exists pages, plumber_pages E (drop (uf_pos (st_upload s)) (uf_content (st_upload s)))
                 = inr pages /\ extract_pages "" pages = inr text) /\
  st_db s1 = st_db s /\ st_s3 s1 = st_s3 s.
Proof.
  destruct s as [[fn c pos] fs db n log s3]. intros H.
  unfold extract_text, read_upload, bind, lift, raise in H. simpl in H.
  destruct (plumber_pages E (drop pos c)) as [e|pages] eqn:Hp; [discriminate |].
  injection H as Hx <-. simpl. eauto.
Qed.

Lemma update_one_ok E (oid : N) (text uri : string) (s s1 : St) (m : nat) :
  update_one E oid text uri s = (inr m, s1) -> m <> 0%nat ->
  (exists d, st_db s !! oid = Some d /\
     st_db s1 = <[oid := {| filename := filename d; upload_time := upload_time d;
                            extracted_text := text; s3_uri := uri |}]> (st_db s)) /\
  st_s3 s1 = st_s3 s.
Proof.
  destruct s as [u fs db n log s3]. intros H Hm.
  unfold update_one, log_db, raise_opt, bind, gets, modify, ret, raise in H.
  destruct (update_error E); simpl in H; [discriminate |].
  destruct (db !! oid) as [d|] eqn:Hd; simpl in H; [| injection H as <- <-; congruence].
  destruct (String.eqb _ _ && String.eqb _ _); simpl in H;
    injection H as <- <-; [congruence |]. simpl. eauto.
Qed.

Lemma find_one_ok E (oid : N) (s s1 : St) (r : option doc) :
  find_one E oid s = (inr r, s1) ->
  r = st_db s !! oid /\ st_db s1 = st_db s /\ st_s3 s1 = st_s3 s.
Proof.
  destruct s as [u fs db n log s3]. intros H.
  unfold find_one, log_db, raise_opt, bind, gets, modify, ret, raise in H.
  destruct (find_error E); simpl in H; [discriminate |].
  injection H as <- <-. simpl. auto.
Qed.

(** What a successful [upload_pdf] has done: the object store holds the
    whole upload under the record's key, and the record holds the locator
    and the text extracted from the whole upload. *)
Lemma upload_pdf_success E (min_file_size : nat) (st st' : St) (r : string * string) :
  upload_pdf E min_file_size st = (inr r, st') ->
  exists oid pages text,
    r = (oid_str oid, upload_message) /\
    st_db st !! oid = None /\
    st_s3 st' = <[s3_key_of oid := uf_content (st_upload st)]> (st_s3 st) /\
    plumber_pages E (uf_content (st_upload st)) = inr pages /\
    extract_pages "" pages = inr text /\
    st_db st' = <[oid := {| filename := uf_filename (st_upload st);
                            upload_time := utcnow E;
                            extracted_text := text;
                            s3_uri := s3_url E oid |}]> (st_db st).
Proof.
  destruct st as [[fn c pos] fs db n log s3]. intros H.
  unfold upload_pdf in H. apply bind_inr in H as (v & s1 & Hv & Hk).
  rewrite is_valid_upload_run in Hv. simpl in Hv.
  destruct (str_endswith ".pdf" fn); injection Hv as <- <-; [| simpl in Hk; discriminate].
  destruct (validation_verdict E min_file_size (drop pos c)) as [[] why];
    simpl in Hk; [| discriminate].
  apply try_raise_inr in Hk. unfold upload_steps in Hk.
  apply bind_inr in Hk as (f & s2 & Hf & Hk). injection Hf as <- <-.
  apply bind_inr in Hk as (oid & s3' & Hins & Hk).
  apply insert_one_ok in Hins as (Hfresh & Hdb3 & Hup3 & Hs33).
  apply bind_inr in Hk as (url & s4 & Hput & Hk).
  apply upload_file_to_s3_ok in Hput as (-> & Hs34 & Hdb4 & Hc4 & Hfn4).
  apply bind_inr in Hk as ([] & s5 & Hseek & Hk). injection Hseek as <-.
  apply bind_inr in Hk as (text & s6 & Hx & Hk).
  apply extract_text_ok in Hx as ((pages & Hpages & Htext) & Hdb6 & Hs36).
  apply bind_inr in Hk as (m & s7 & Hupd & Hk).
  destruct (Nat.eqb m 0) eqn:Hm; [discriminate |]. apply Nat.eqb_neq in Hm.
  apply update_one_ok in Hupd as ((d & Hd & Hdb7) & Hs37); [| exact Hm].
  apply bind_inr in Hk as (fd & s8 & Hfind & Hk).
  apply find_one_ok in Hfind as (_ & Hdb8 & Hs38).
  destruct fd; [| discriminate]. injection Hk as <- <-.
  simpl in *. rewrite Hup3 in Hs34, Hc4, Hfn4. simpl in Hs34, Hc4, Hfn4.
  rewrite Hc4 in Hpages. rewrite drop_0 in Hpages.
  exists oid, pages, text. repeat split; auto.
  - rewrite Hs38, Hs37, Hs36. simpl. rewrite Hs34, Hs33. reflexivity.
  - rewrite Hdb8, Hdb7. simpl in Hd |- *. rewrite Hdb6 in Hd |- *. simpl in Hd |- *.
    rewrite Hdb4, Hdb3 in Hd |- *. rewrite lookup_insert_eq in Hd. injection Hd as <-.
    simpl. rewrite insert_insert_eq. reflexivity.
Qed.

(** ** Object-store key and locator *)

(** C8: the storage key is ["documents/" + id + ".pdf"]; the object is
    stored under it; the locator returned by the adapter and stored in the
    record is the bucket's URL followed by exactly that key. *)
Theorem upload_s3_key_and_locator E (min_file_size : nat) (st st' : St)
    (doc_id message : string) :
  upload_pdf E min_file_size st = (inr (doc_id, message), st') ->
  exists oid d,
    doc_id = oid_str oid /\
    s3_key_of oid = "documents/" +:+ doc_id +:+ ".pdf" /\
    st_s3 st' !! ("documents/" +:+ doc_id +:+ ".pdf") = Some (uf_content (st_upload st)) /\
    st_db st' !! oid = Some d /\
    s3_uri d = "https://" +:+ bucket_name E +:+ ".s3." +:+ region_name E
               +:+ ".amazonaws.com/" +:+ ("documents/" +:+ doc_id +:+ ".pdf").
Proof.
  intros H.
  apply upload_pdf_success in H as (oid & pages & text & Hr & _ & Hs3 & _ & _ & Hdb).
  injection Hr as -> _.
  eexists oid, _. split; [reflexivity |]. split; [reflexivity |].
  split; [rewrite Hs3; apply lookup_insert_eq |].
  split; [rewrite Hdb; apply lookup_insert_eq |]. reflexivity.
Qed.

Lemma upload_s3_key_and_locator_witness :
  exists oid d,
    "0000000000000000000000ff" = oid_str oid /\
    s3_key_of oid = "documents/" +:+ "0000000000000000000000ff" +:+ ".pdf" /\
    st_s3 (snd (upload_pdf env_ok 1024 (st_with "a.pdf" sample_pdf)))
      !! ("documents/" +:+ "0000000000000000000000ff" +:+ ".pdf") = Some sample_pdf /\
    st_db (snd (upload_pdf env_ok 1024 (st_with "a.pdf" sample_pdf))) !! oid = Some d /\
    s3_uri d = "https://bkt.s3.us-east-1.amazonaws.com/"
               +:+ ("documents/" +:+ "0000000000000000000000ff" +:+ ".pdf").
Proof.
  apply (upload_s3_key_and_locator env_ok 1024 (st_with "a.pdf" sample_pdf)
           (snd (upload_pdf env_ok 1024 (st_with "a.pdf" sample_pdf)))
           "0000000000000000000000ff" upload_message).
  vm_compute. reflexivity.
Defined.

(** C5: validation has no side effect on the caller's state.  The upload
    stream, which the handler receives at its start, is back at its start
    when [is_valid_upload] returns (whatever its verdict), the temporary
    copy is gone and nothing else has changed; and on a successful upload
    the object store and the text extraction both get the whole upload. *)
Theorem is_valid_upload_no_side_effects E (min_file_size : nat) (st : St) :
  uf_pos (st_upload st) = 0%nat ->
  (exists verdict, is_valid_upload E min_file_size st = (inr verdict, st)) /\
  (forall r st', upload_pdf E min_file_size st = (inr r, st') ->
   exists oid pages text,
     st_s3 st' !! s3_key_of oid = Some (uf_content (st_upload st)) /\
     plumber_pages E (uf_content (st_upload st)) = inr pages /\
     extract_pages "" pages = inr text /\
     option_map extracted_text (st_db st' !! oid) = Some text).
Proof.
  intros Hpos. split; [apply is_valid_upload_restores_state, Hpos |].
  intros r st' H.
  apply upload_pdf_success in H as (oid & pages & text & _ & _ & Hs3 & Hp & Ht & Hdb).
  exists oid, pages, text. rewrite Hs3, Hdb, !lookup_insert_eq. auto.
Qed.

Lemma is_valid_upload_no_side_effects_witness :
  (exists verdict, is_valid_upload env_ok 1024 (st_with "a.pdf" sample_pdf)
                   = (inr verdict, st_with "a.pdf" sample_pdf)) /\
  exists oid pages text,
    st_s3 (snd (upload_pdf env_ok 1024 (st_with "a.pdf" sample_pdf))) !! s3_key_of oid
    = Some sample_pdf /\
    plumber_pages env_ok sample_pdf = inr pages /\
    extract_pages "" pages = inr text /\
    option_map extracted_text
      (st_db (snd (upload_pdf env_ok 1024 (st_with "a.pdf" sample_pdf))) !! oid) = Some text.
Proof.
  destruct (is_valid_upload_no_side_effects env_ok 1024 (st_with "a.pdf" sample_pdf)
              eq_refl) as [H1 H2].
  split; [exact H1 |].
  apply (H2 (oid_str 255, upload_message)). vm_compute. reflexivity.
Defined.

(** ** Rejection before any persistence *)

Lemma is_valid_upload_frame E (min_file_size : nat) (st : St) :
  st_db (snd (is_valid_upload E min_file_size st)) = st_db st /\
  st_db_log (snd (is_valid_upload E min_file_size st)) = st_db_log st /\
  st_s3 (snd (is_valid_upload E min_file_size st)) = st_s3 st.
Proof.
  rewrite is_valid_upload_run.
  destruct (str_endswith ".pdf" _); simpl; auto.
Qed.

(** C1: when the validator's verdict is negative, [upload_pdf] answers 400
    with the validator's reason, and no insert is attempted: the
    collection and the log of calls made to it are unchanged. *)
Theorem upload_rejected_before_insert E (min_file_size : nat) (st : St) (why : string) :
  fst (is_valid_upload E min_file_size st) = inr (false, why) ->
  upload_pdf E min_file_size st
  = (inl (HTTPException 400 why), snd (is_valid_upload E min_file_size st)) /\
  st_db (snd (upload_pdf E min_file_size st)) = st_db st /\
  st_db_log (snd (upload_pdf E min_file_size st)) = st_db_log st.
Proof.
  intros Hv.
  destruct (is_valid_upload_frame E min_file_size st) as (Hdb & Hlog & _).
  assert (Hrun : upload_pdf E min_file_size st
                 = (inl (HTTPException 400 why), snd (is_valid_upload E min_file_size st))).
  { unfold upload_pdf, bind.
    destruct (is_valid_upload E min_file_size st) as [r s1]. simpl in Hv |- *.
    subst r. reflexivity. }
  rewrite Hrun. simpl. auto.
Qed.

Definition small_pdf : bytes := take 500 sample_pdf.

Lemma upload_rejected_before_insert_witness :
  upload_pdf env_ok 1024 (st_with "small.pdf" small_pdf)
  = (inl (HTTPException 400 (size_reason 1024)),
     snd (is_valid_upload env_ok 1024 (st_with "small.pdf" small_pdf))) /\
  st_db (snd (upload_pdf env_ok 1024 (st_with "small.pdf" small_pdf))) = ∅ /\
  st_db_log (snd (upload_pdf env_ok 1024 (st_with "small.pdf" small_pdf))) = [].
Proof.
  apply (upload_rejected_before_insert env_ok 1024 (st_with "small.pdf" small_pdf)).
  vm_compute. reflexivity.
Defined.

(** ** Failures after validation *)

(** C3 (amended): once validation passed, an exception [e] raised at any
    later step (insert, object-store upload, extraction, the zero-modified
    check, the final read) becomes one 500 response whose detail is the
    fixed prefix ["Upload to s3 failed: "] followed by [str(e)]; no success
    response is returned. *)
Theorem upload_late_failure E (min_file_size : nat) (st s1 s2 : St) (m : string)
    (e : exn) :
  is_valid_upload E min_file_size st = (inr (true, m), s1) ->
  upload_steps E s1 = (inl e, s2) ->
  upload_pdf E min_file_size st
  = (inl (HTTPException 500 ("Upload to s3 failed: " +:+ py_str e)), s2).
Proof.
  intros Hv Hs. unfold upload_pdf, bind. rewrite Hv. simpl.
  unfold try_except. rewrite Hs. reflexivity.
Qed.

Definition timeout_error : exn := PyError "ServerSelectionTimeoutError" "timed out".

Definition env_insert_fails : Env :=
  env_with (fun _ => inr false) (fun _ => inr [text_page "Hello"]) (Some timeout_error).

(** The layout extraction of the only page raises with the same message. *)
Definition env_extract_fails : Env :=
  env_with (fun _ => inr false)
    (fun _ => inr [{| extract_plain := inr (Some "Hello");
                      extract_layout := inl (PyError "PSSyntaxError" "timed out") |}])
    None.

Lemma upload_late_failure_witness :
  upload_pdf env_insert_fails 1024 (st_with "a.pdf" sample_pdf)
  = (inl (HTTPException 500 ("Upload to s3 failed: " +:+ py_str timeout_error)),
     snd (upload_steps env_insert_fails
            (snd (is_valid_upload env_insert_fails 1024 (st_with "a.pdf" sample_pdf))))).
Proof.
  apply (upload_late_failure env_insert_fails 1024 (st_with "a.pdf" sample_pdf)
           (snd (is_valid_upload env_insert_fails 1024 (st_with "a.pdf" sample_pdf)))
           _ "PDF is valid" timeout_error); vm_compute; reflexivity.
Defined.

(** C3, as stated, fails: the detail does not carry the originating stage.
    A failed insert is reported as ["Upload to s3 failed: ..."] although
    the object store was never called, and it gets the same response as a
    failed text extraction with the same cause. *)
Lemma upload_failure_stage_not_reported :
  fst (upload_pdf env_insert_fails 1024 (st_with "a.pdf" sample_pdf))
  = inl (HTTPException 500 "Upload to s3 failed: timed out") /\
  st_s3 (snd (upload_pdf env_insert_fails 1024 (st_with "a.pdf" sample_pdf))) = ∅ /\
  fst (upload_pdf env_extract_fails 1024 (st_with "a.pdf" sample_pdf))
  = inl (HTTPException 500 "Upload to s3 failed: timed out").
Proof. vm_compute. repeat split. Qed.

(** ** Text extraction *)

Lemma str_app_assoc (a b c : string) : (a +:+ b) +:+ c = a +:+ (b +:+ c).
Proof.
  induction a as [|x a IH]; [reflexivity |].
  change (String x ((a +:+ b) +:+ c) = String x (a +:+ (b +:+ c))). now rewrite IH.
Qed.

Lemma str_app_nil_r (a : string) : a +:+ "" = a.
Proof.
  induction a as [|x a IH]; [reflexivity |].
  change (String x (a +:+ "") = String x a). now rewrite IH.
Qed.

(** The per-page results, or the first exception among them. *)
Fixpoint collect {A} (rs : list (exn + A)) : exn + list A :=
  match rs with
  | [] => inr []
  | inl e :: _ => inl e
  | inr a :: rs' =>
      match collect rs' with
      | inl e => inl e
      | inr l => inr (a :: l)
      end
  end.

(** Each non-empty page text followed by a blank line, in page order. *)
Definition page_blocks (ts : list (option string)) : string :=
  foldr (fun t acc => match t with
                      | Some s => if String.eqb s "" then acc else s +:+ blank_line +:+ acc
                      | None => acc
                      end) "" ts.

Lemma extract_pages_acc (acc : string) (pages : list page) :
  extract_pages acc pages
  = match collect (map extract_layout pages) with
    | inl e => inl e
    | inr ts => inr (acc +:+ page_blocks ts)
    end.
Proof.
  revert acc. induction pages as [|p ps IH]; intros acc; simpl.
  - now rewrite str_app_nil_r.
  - destruct (extract_layout p) as [e|[t|]]; [reflexivity | |]; rewrite IH.
    + destruct (collect (map extract_layout ps)) as [e|ts]; [reflexivity |].
      simpl. destruct (String.eqb t ""); [reflexivity |].
      now rewrite !str_app_assoc.
    + destruct (collect (map extract_layout ps)); reflexivity.
Qed.

(** C4 (amended): the extraction loop's output is, in page order, each
    page's non-empty text followed by a blank line; pages without text
    contribute nothing, and a page whose extraction raises makes the whole
    extraction raise. *)
Theorem extract_pages_blocks (pages : list page) :
  extract_pages "" pages
  = match collect (map extract_layout pages) with
    | inl e => inl e
    | inr ts => inr (page_blocks ts)
    end.
Proof. rewrite extract_pages_acc. reflexivity. Qed.

(** C4, as stated, fails: a one-page document yields its text followed by
    a blank line, not its text alone. *)
Lemma extract_single_page_trailing_blank_line :
  fst (extract_text env_ok (st_with "a.pdf" sample_pdf)) = inr ("Hello" +:+ blank_line) /\
  "Hello" +:+ blank_line <> "Hello".
Proof. split; [vm_compute; reflexivity | discriminate]. Qed.

(** ** Order of the validation checks *)

Definition env_encrypted_blank : Env :=
  env_with (fun _ => inr true) (fun _ => inr [text_page "   "]) None.

(** C2, as stated, fails: a file that is both encrypted and blank on its
    first page is reported as encrypted, because [_check_pdf_content]
    queries pypdf's encryption flag before pdfplumber's page checks. *)
Lemma encrypted_blank_reported_encrypted :
  plumber_check env_encrypted_blank sample_pdf = (false, blank_reason) /\
  pypdf_is_encrypted env_encrypted_blank sample_pdf = inr true /\
  fst (is_valid_upload env_encrypted_blank 1024 (st_with "a.pdf" sample_pdf))
  = inr (false, encrypted_reason) /\
  encrypted_reason <> blank_reason.
Proof. vm_compute. repeat split. discriminate. Qed.

(** The checks, each as its failure reason ([None] when it passes). *)
Definition extension_check (name : string) : option string :=
  if str_endswith ".pdf" name then None else Some extension_reason.

Definition size_check (min_file_size : nat) (b : bytes) : option string :=
  if (length b <? min_file_size)%nat then Some (size_reason min_file_size) else None.

Definition header_check (b : bytes) : option string :=
  if bool_decide (take 5 b = pdf_header) then None else Some structure_reason.

Definition eof_check (b : bytes) : option string :=
  if (length b <? 1024)%nat then Some structure_reason
  else if bytes_contains eof_marker (drop (length b - 1024) b) then None
  else Some structure_reason.

Definition encryption_check E (b : bytes) : option string :=
  match pypdf_is_encrypted E b with
  | inr true => Some encrypted_reason
  | _ => None
  end.

Definition pages_check E (b : bytes) : option string :=
  match plumber_pages E b with
  | inl e => Some ("PDF content validation failed: " +:+ py_str e)
  | inr [] => Some no_pages_reason
  | inr _ => None
  end.

Definition first_page_text_check E (b : bytes) : option string :=
  match plumber_pages E b with
  | inr (p :: _) =>
      match extract_plain p with
      | inl e => Some ("PDF content validation failed: " +:+ py_str e)
      | inr None => Some blank_reason
      | inr (Some t) => if String.eqb (py_strip t) "" then Some blank_reason else None
      end
  | _ => None
  end.

(** The checks in the order the code runs them. *)
Definition checks_in_order E (min_file_size : nat) (name : string) (b : bytes)
    : list (option string) :=
  [extension_check name; size_check min_file_size b; header_check b; eof_check b;
   encryption_check E b; pages_check E b; first_page_text_check E b].

(** The verdict of a short-circuiting sequence of checks. *)
Fixpoint first_failure (checks : list (option string)) : bool * string :=
  match checks with
  | [] => (true, "PDF is valid")
  | Some why :: _ => (false, why)
  | None :: rest => first_failure rest
  end.

(** C2 (amended): with pypdf importable, the verdict on an upload is that
    of the first failing check in the order extension, size, header, EOF
    marker (header and EOF share one reason), encryption as reported by
    pypdf (no failure when pypdf cannot parse the file), at least one
    page, non-empty first-page text. *)
Theorem is_valid_upload_check_order E (min_file_size : nat) (st : St) :
  pypdf_import E = None ->
  fst (is_valid_upload E min_file_size st)
  = inr (first_failure (checks_in_order E min_file_size (uf_filename (st_upload st))
                          (drop (uf_pos (st_upload st)) (uf_content (st_upload st))))).
Proof.
  intros Hi. rewrite is_valid_upload_run.
  unfold checks_in_order, extension_check.
  destruct (str_endswith ".pdf" _); [| reflexivity]. simpl.
  generalize (drop (uf_pos (st_upload st)) (uf_content (st_upload st))) as b. intros b.
  unfold validation_verdict, is_valid_file, size_check, header_check, eof_check,
    check_pdf_structure, check_pdf_content, encryption_check, pages_check,
    first_page_text_check, plumber_check.
  rewrite Hi.
  destruct (length b <? min_file_size)%nat; [reflexivity |]. simpl.
  destruct (bool_decide (take 5 b = pdf_header)); [| reflexivity]. simpl.
  destruct (length b <? 1024)%nat; [reflexivity |]. simpl.
  destruct (bytes_contains eof_marker _); [| reflexivity]. simpl.
  destruct (pypdf_is_encrypted E b) as [e|[]]; [| reflexivity |];
    destruct (plumber_pages E b) as [e'|[|p ps]]; try reflexivity;
    destruct (extract_plain p) as [e'|[t|]]; try reflexivity;
    destruct (String.eqb (py_strip t) ""); reflexivity.
Qed.

Lemma is_valid_upload_check_order_witness :
  fst (is_valid_upload env_encrypted_blank 1024 (st_with "a.pdf" sample_pdf))
  = inr (first_failure (checks_in_order env_encrypted_blank 1024 "a.pdf" sample_pdf)).
Proof. apply (is_valid_upload_check_order env_encrypted_blank 1024 (st_with "a.pdf" sample_pdf)). reflexivity. Defined.

(** ** Listing *)

Lemma insert_desc_hd (a : nat) (x : N * doc) (l : list (N * doc)) :
  HdRel newest_first a (times l) -> newest_first a (upload_time (snd x)) ->
  HdRel newest_first a (times (insert_desc x l)).
Proof.
  destruct l as [|y l]; simpl; intros Hl Hx; [constructor; exact Hx |].
  destruct (Nat.leb _ _); simpl; constructor; [exact Hx |].
  eapply HdRel_inv; exact Hl.
Qed.

Lemma insert_desc_sorted (x : N * doc) (l : list (N * doc)) :
  Sorted newest_first (times l) -> Sorted newest_first (times (insert_desc x l)).
Proof.
  induction l as [|y l IH]; simpl; intros Hs.
  - repeat constructor.
  - apply Sorted_inv in Hs as [Hs Hhd].
    destruct (Nat.leb (upload_time (snd y)) (upload_time (snd x))) eqn:Hle; simpl.
    + apply Nat.leb_le in Hle. constructor; [constructor; assumption | constructor; exact Hle].
    + apply Nat.leb_gt in Hle. constructor; [apply IH; exact Hs |].
      apply insert_desc_hd; [exact Hhd | unfold newest_first; lia].
Qed.

Lemma sort_desc_sorted (l : list (N * doc)) : Sorted newest_first (times (sort_desc l)).
Proof.
  induction l as [|x l IH]; simpl; [constructor | apply insert_desc_sorted, IH].
Qed.

Lemma insert_desc_perm (x : N * doc) (l : list (N * doc)) : insert_desc x l ≡ₚ x :: l.
Proof.
  induction l as [|y l IH]; simpl; [reflexivity |].
  destruct (Nat.leb _ _); [reflexivity |].
  rewrite IH. constructor.
Qed.

Lemma sort_desc_perm (l : list (N * doc)) : sort_desc l ≡ₚ l.
Proof.
  induction l as [|x l IH]; simpl; [reflexivity |].
  rewrite insert_desc_perm, IH. reflexivity.
Qed.

(** [sort_desc] is an order the server may use. *)
Lemma sort_desc_by_upload_time : by_upload_time sort_desc.
Proof. intros l. split; [apply sort_desc_perm | apply sort_desc_sorted]. Qed.

Lemma Sorted_drop {A} (R : A -> A -> Prop) (n : nat) (l : list A) :
  Sorted R l -> Sorted R (drop n l).
Proof.
  revert l. induction n as [|n IH]; intros [|x l] Hs; simpl; auto.
  apply IH. apply Sorted_inv in Hs as [Hs _]. exact Hs.
Qed.

Lemma HdRel_take {A} (R : A -> A -> Prop) (a : A) (n : nat) (l : list A) :
  HdRel R a l -> HdRel R a (take n l).
Proof.
  destruct n, l; simpl; intros H; try constructor.
  eapply HdRel_inv; exact H.
Qed.

Lemma map_take_comm {A B} (f : A -> B) (n : nat) (l : list A) :
  map f (take n l) = take n (map f l).
Proof. revert l. induction n; intros [|x l]; simpl; f_equal; auto. Qed.

Lemma map_drop_comm {A B} (f : A -> B) (n : nat) (l : list A) :
  map f (drop n l) = drop n (map f l).
Proof. revert l. induction n; intros [|x l]; simpl; auto. Qed.

Lemma Sorted_take {A} (R : A -> A -> Prop) (n : nat) (l : list A) :
  Sorted R l -> Sorted R (take n l).
Proof.
  revert l. induction n as [|n IH]; intros [|x l] Hs; simpl; [constructor | constructor | constructor |].
  apply Sorted_inv in Hs as [Hs Hhd]. constructor; [apply IH, Hs | apply HdRel_take, Hhd].
Qed.

(** ⌈t / l⌉, by cases on the remainder. *)
Definition ceil_div (t l : Z) : Z := if (t mod l =? 0)%Z then (t / l)%Z else (t / l + 1)%Z.

Lemma total_pages_ceil (t l : Z) :
  (0 <= t)%Z -> (1 <= l)%Z -> ((t + l - 1) / l)%Z = ceil_div t l.
Proof.
  intros Ht Hl. unfold ceil_div.
  pose proof (Z.div_mod t l ltac:(lia)) as Hdm.
  pose proof (Z.mod_pos_bound t l ltac:(lia)) as Hb.
  set (q := (t / l)%Z) in *. set (r := (t mod l)%Z) in *.
  replace (t + l - 1)%Z with ((r + l - 1) + q * l)%Z by lia.
  rewrite Z.div_add by lia.
  destruct (Z.eqb_spec r 0) as [Hr|Hr].
  - rewrite Hr, Z.div_small by lia. lia.
  - replace (r + l - 1)%Z with ((r - 1) + 1 * l)%Z by lia.
    rewrite Z.div_add, Z.div_small by lia. lia.
Qed.

(** C9: for a page [p >= 1] and a limit [1 <= l <= 100], whatever order
    the server gives records with equal upload times: when the offset
    [(p - 1) * l] fits in a BSON int64, the listing holds at most [l]
    records, newest first; [total] is the number of records; [has_next]
    holds exactly when [p < ⌈total / l⌉] and [has_prev] exactly when
    [p > 1].  A larger offset makes the driver raise [OverflowError]
    (answered with 500) and no listing is returned. *)
Theorem get_documents_pagination (srt : list (N * doc) -> list (N * doc))
    (page limit : Z) (st : St) :
  by_upload_time srt -> (1 <= page)%Z -> (1 <= limit <= 100)%Z ->
  (((page - 1) * limit <= int64_max)%Z ->
   exists items pg,
     fst (get_documents srt page limit st) = inr (items, pg) /\
     (Z.of_nat (length items) <= limit)%Z /\
     Sorted newest_first (map li_upload_time items) /\
     pg_total pg = Z.of_nat (size (st_db st)) /\
     (pg_has_next pg = true <-> (page < ceil_div (pg_total pg) limit)%Z) /\
     (pg_has_prev pg = true <-> (1 < page)%Z)) /\
  ((int64_max < (page - 1) * limit)%Z ->
   fst (get_documents srt page limit st)
   = inl (PyError "OverflowError" "MongoDB can only handle up to 8-byte ints")).
Proof.
  intros Hsrt Hp Hl. unfold get_documents, find_page.
  replace ((1 <=? page) && (1 <=? limit) && (limit <=? 100))%Z with true
    by (symmetry; rewrite !andb_true_iff, !Z.leb_le; lia).
  split; intros Hskip.
  - replace (int64_max <? (page - 1) * limit)%Z with false
      by (symmetry; apply Z.ltb_ge; lia).
    simpl. eexists _, _. split; [reflexivity |]. simpl.
    split; [| split; [| split; [reflexivity | split]]].
    + rewrite length_map, length_take. lia.
    + rewrite map_map, map_take_comm, map_drop_comm.
      apply Sorted_take, Sorted_drop, (Hsrt _).
    + rewrite total_pages_ceil by lia.
      match goal with |- context [Z.ltb ?a ?b] => destruct (Z.ltb_spec a b) end;
        split; (discriminate || lia || reflexivity).
    + rewrite Z.gtb_ltb. destruct (Z.ltb_spec 1 page); split; (discriminate || lia || reflexivity).
  - replace (int64_max <? (page - 1) * limit)%Z with true
      by (symmetry; apply Z.ltb_lt; lia).
    reflexivity.
Qed.

Lemma get_documents_pagination_witness :
  exists items pg,
    fst (get_documents sort_desc 1 10 (snd (upload_pdf env_ok 1024 (st_with "a.pdf" sample_pdf))))
    = inr (items, pg) /\
    (Z.of_nat (length items) <= 10)%Z /\
    Sorted newest_first (map li_upload_time items) /\
    pg_total pg = Z.of_nat (size (st_db (snd (upload_pdf env_ok 1024 (st_with "a.pdf" sample_pdf))))) /\
    (pg_has_next pg = true <-> (1 < ceil_div (pg_total pg) 10)%Z) /\
    (pg_has_prev pg = true <-> (1 < 1)%Z).
Proof.
  apply (get_documents_pagination sort_desc 1 10
           (snd (upload_pdf env_ok 1024 (st_with "a.pdf" sample_pdf))));
    [apply sort_desc_by_upload_time | lia | lia | unfold int64_max; lia].
Defined.

(** ** Fetching one document *)

(** C10: a malformed identifier fails with 400 before any query (the
    state, including the log of collection calls, is unchanged); a
    well-formed identifier with no record fails with 404; a well-formed
    identifier never gets the malformed-identifier 400. *)
Theorem get_document_error_classes E (object_id : string -> option N)
    (doc_id : string) (st : St) :
  (object_id doc_id = None ->
   get_document E object_id doc_id st
   = (inl (HTTPException 400 "Invalid ObjectId format"), st)) /\
  (forall oid, object_id doc_id = Some oid -> find_error E = None ->
   st_db st !! oid = None ->
   fst (get_document E object_id doc_id st) = inl (HTTPException 404 "Document not found")) /\
  (forall oid, object_id doc_id = Some oid -> find_error E = None ->
   fst (get_document E object_id doc_id st)
   <> inl (HTTPException 400 "Invalid ObjectId format")).
Proof.
  unfold get_document. split; [| split].
  - intros H. rewrite H. reflexivity.
  - intros oid H Hf Hdb. rewrite H.
    destruct st as [u fs db n log s3]. simpl in Hdb.
    unfold find_one, log_db, raise_opt, bind, gets, modify, ret, raise.
    rewrite Hf. simpl. rewrite Hdb. reflexivity.
  - intros oid H Hf. rewrite H.
    destruct st as [u fs db n log s3].
    unfold find_one, log_db, raise_opt, bind, gets, modify, ret, raise.
    rewrite Hf. simpl. destruct (db !! oid); simpl; discriminate.
Qed.

(** bson's [ObjectId(s)] on a string: exactly 24 hex digits. *)
Definition hex_value (c : ascii) : option N :=
  let n := N_of_ascii c in
  if ((48 <=? n) && (n <=? 57))%N then Some (n - 48)%N
  else if ((97 <=? n) && (n <=? 102))%N then Some (n - 87)%N
  else if ((65 <=? n) && (n <=? 70))%N then Some (n - 55)%N
  else None.

Fixpoint hex_parse (acc : N) (s : string) : option N :=
  match s with
  | EmptyString => Some acc
  | String c s' =>
      match hex_value c with
      | Some v => hex_parse (16 * acc + v)%N s'
      | None => None
      end
  end.

Definition bson_object_id (s : string) : option N :=
  if Nat.eqb (String.length s) 24 then hex_parse 0 s else None.

Example bson_object_id_roundtrip : bson_object_id (oid_str 255) = Some 255%N.
Proof. vm_compute. reflexivity. Qed.

Lemma get_document_error_classes_witness :
  get_document env_ok bson_object_id "not-an-id" (st_with "a.pdf" sample_pdf)
  = (inl (HTTPException 400 "Invalid ObjectId format"), st_with "a.pdf" sample_pdf) /\
  fst (get_document env_ok bson_object_id "0000000000000000000000fe"
         (snd (upload_pdf env_ok 1024 (st_with "a.pdf" sample_pdf))))
  = inl (HTTPException 404 "Document not found") /\
  fst (get_document env_ok bson_object_id "0000000000000000000000fe"
         (snd (upload_pdf env_ok 1024 (st_with "a.pdf" sample_pdf))))
  <> inl (HTTPException 400 "Invalid ObjectId format").
Proof.
  destruct (get_document_error_classes env_ok bson_object_id "not-an-id"
              (st_with "a.pdf" sample_pdf)) as [H1 _].
  destruct (get_document_error_classes env_ok bson_object_id "0000000000000000000000fe"
              (snd (upload_pdf env_ok 1024 (st_with "a.pdf" sample_pdf)))) as [_ [H2 H3]].
  split; [apply H1; vm_compute; reflexivity |].
  split; [apply (H2 254%N) | apply (H3 254%N)]; vm_compute; reflexivity.
Defined.

(* ================================================================== *)
(** * Further properties of the code *)

(** ** Summaries and questions *)

Lemma document_text_found E (object_id : string -> option N) (doc_id : string)
    (oid : N) (d : doc) (st : St) :
  object_id doc_id = Some oid -> find_error E = None -> st_db st !! oid = Some d ->
  document_text E object_id doc_id st
  = (if String.eqb (extracted_text d) "" then inl (HTTPException 400 "Document has no extracted text")
     else inr (extracted_text d),
     set_db_log (st_db_log st ++ [DbFind]) st).
Proof.
  intros Ho Hf Hd. unfold document_text. rewrite Ho.
  destruct st as [u fs db n log s3]. simpl in Hd.
  unfold find_one, log_db, raise_opt, bind, gets, modify, ret, raise.
  rewrite Hf. simpl. rewrite Hd. destruct (String.eqb _ _); reflexivity.
Qed.

Definition pending_doc : doc :=
  {| filename := "a.pdf"; upload_time := 7; extracted_text := ""; s3_uri := "" |}.

Definition st_pending : St :=
  {| st_upload := {| uf_filename := "a.pdf"; uf_content := sample_pdf; uf_pos := 0 |};
     st_fs := ∅; st_db := {[ 255%N := pending_doc ]}; st_next_oid := 256%N;
     st_db_log := []; st_s3 := ∅ |}.

Definition decode_good (t : string) : option pydict :=
  if String.eqb t "good" then Some [] else None.

Definition model_echo : llm_model := fun p => inr "summary".
Definition model_down : llm_model := fun p => inl (PyError "ServiceUnavailable" "503 overloaded").

(** Both LLM routes refuse a record whose extracted text is empty (a
    record left pending by a failed upload) with 400 "Document has no
    extracted text", and never call the model: the outcome is the same
    whatever the model does. *)
Theorem llm_routes_refuse_empty_text E (model model' : llm_model)
    (object_id : string -> option N) (decode : string -> option pydict)
    (token doc_id : string) (unquote : string -> string) (path query : string)
    (oid : N) (d : doc) (st : St) (payload : pydict) :
  object_id doc_id = Some oid -> find_error E = None -> st_db st !! oid = Some d ->
  extracted_text d = "" -> decode token = Some payload ->
  summarize_document E model object_id decode (inr token) doc_id st
  = (inl (HTTPException 400 "Document has no extracted text"),
     set_db_log (st_db_log st ++ [DbFind]) st) /\
  summarize_document E model' object_id decode (inr token) doc_id st
  = summarize_document E model object_id decode (inr token) doc_id st /\
  query_document E model object_id unquote path query doc_id st
  = (inl (HTTPException 400 "Document has no extracted text"),
     set_db_log (st_db_log st ++ [DbFind]) st) /\
  query_document E model' object_id unquote path query doc_id st
  = query_document E model object_id unquote path query doc_id st.
Proof.
  intros Ho Hf Hd He Hdec.
  assert (Ht := document_text_found E object_id doc_id oid d st Ho Hf Hd).
  rewrite He in Ht. simpl in Ht.
  unfold summarize_document, query_document, verify_token. rewrite Hdec.
  unfold bind. rewrite Ht. repeat split.
Qed.

Lemma llm_routes_refuse_empty_text_witness :
  summarize_document env_ok model_echo bson_object_id decode_good (inr "good")
    "0000000000000000000000ff" st_pending
  = (inl (HTTPException 400 "Document has no extracted text"),
     set_db_log (st_db_log st_pending ++ [DbFind]) st_pending) /\
  summarize_document env_ok model_down bson_object_id decode_good (inr "good")
    "0000000000000000000000ff" st_pending
  = summarize_document env_ok model_echo bson_object_id decode_good (inr "good")
    "0000000000000000000000ff" st_pending /\
  query_document env_ok model_echo bson_object_id (fun s => s)
    "/query/0000000000000000000000ff/why" "" "0000000000000000000000ff" st_pending
  = (inl (HTTPException 400 "Document has no extracted text"),
     set_db_log (st_db_log st_pending ++ [DbFind]) st_pending) /\
  query_document env_ok model_down bson_object_id (fun s => s)
    "/query/0000000000000000000000ff/why" "" "0000000000000000000000ff" st_pending
  = query_document env_ok model_echo bson_object_id (fun s => s)
    "/query/0000000000000000000000ff/why" "" "0000000000000000000000ff" st_pending.
Proof.
  apply (llm_routes_refuse_empty_text env_ok model_echo model_down bson_object_id
           decode_good "good" "0000000000000000000000ff" (fun s => s)
           "/query/0000000000000000000000ff/why" "" 255%N pending_doc st_pending []);
    vm_compute; reflexivity.
Defined.

(** On a record with text, [/summarize] sends the model exactly the fixed
    instruction followed by the record's text; it answers with the model's
    text, or fails with 500 whose detail is ["Summarization failed: "]
    followed by the LLM service's wrapped message.  The only effect is one
    read of the collection. *)
Theorem summarize_prompt_and_errors E (model : llm_model)
    (object_id : string -> option N) (decode : string -> option pydict)
    (token doc_id : string) (oid : N) (d : doc) (st : St) (payload : pydict) :
  object_id doc_id = Some oid -> find_error E = None -> st_db st !! oid = Some d ->
  extracted_text d <> "" -> decode token = Some payload ->
  summarize_document E model object_id decode (inr token) doc_id st
  = (match model ("Summarize the following content in 2 sentences:" +:+ blank_line
                  +:+ extracted_text d) with
     | inl e => inl (HTTPException 500 ("Summarization failed: LLM generation failed: "
                                        +:+ py_str e))
     | inr response => inr (doc_id, response)
     end,
     set_db_log (st_db_log st ++ [DbFind]) st).
Proof.
  intros Ho Hf Hd He Hdec.
  assert (Ht := document_text_found E object_id doc_id oid d st Ho Hf Hd).
  apply String.eqb_neq in He. rewrite He in Ht.
  unfold summarize_document, verify_token. rewrite Hdec.
  unfold bind. rewrite Ht. unfold generate_content, summarize_prefix.
  destruct (model _); reflexivity.
Qed.

Lemma summarize_prompt_and_errors_witness :
  summarize_document env_ok model_down bson_object_id decode_good (inr "good")
    "0000000000000000000000ff" (snd (upload_pdf env_ok 1024 (st_with "a.pdf" sample_pdf)))
  = (inl (HTTPException 500 ("Summarization failed: LLM generation failed: "
                             +:+ "503 overloaded")),
     set_db_log (st_db_log (snd (upload_pdf env_ok 1024 (st_with "a.pdf" sample_pdf)))
                 ++ [DbFind]) (snd (upload_pdf env_ok 1024 (st_with "a.pdf" sample_pdf)))).
Proof.
  apply (summarize_prompt_and_errors env_ok model_down bson_object_id decode_good
           "good" "0000000000000000000000ff" 255%N
           {| filename := "a.pdf"; upload_time := 7;
              extracted_text := "Hello" +:+ blank_line;
              s3_uri := s3_url env_ok 255 |}
           _ []); vm_compute; try reflexivity; discriminate.
Defined.

(** Python's [sub in s] test by [String.prefix]. *)
Lemma prefix_app (a b : string) : String.prefix a (a +:+ b) = true.
Proof.
  induction a as [|x a IH]; [destruct b; reflexivity |].
  simpl. destruct (ascii_dec x x); [exact IH | congruence].
Qed.

Lemma str_length_app (a b : string) :
  String.length (a +:+ b) = (String.length a + String.length b)%nat.
Proof. induction a as [|x a IH]; simpl; [reflexivity | now rewrite IH]. Qed.

Lemma substring_app (a b : string) (n m : nat) :
  substring (String.length a + n) m (a +:+ b) = substring n m b.
Proof. induction a as [|x a IH]; simpl; [reflexivity | exact IH]. Qed.

Lemma substring_all (s : string) : substring 0 (String.length s) s = s.
Proof. induction s as [|x s IH]; simpl; [reflexivity | now rewrite IH]. Qed.

Lemma py_slice_from_app (a b : string) :
  py_slice_from (a +:+ b) (Z.of_nat (String.length a)) = b.
Proof.
  unfold py_slice_from. rewrite str_length_app.
  replace (Z.of_nat (String.length a) <? 0)%Z with false by (symmetry; apply Z.ltb_ge; lia).
  rewrite Z.min_l by lia.
  replace (Z.to_nat (Z.of_nat (String.length a))) with (String.length a + 0)%nat by lia.
  replace (Z.to_nat (Z.of_nat (String.length a + String.length b) - Z.of_nat (String.length a)))
    with (String.length b) by lia.
  rewrite substring_app. apply substring_all.
Qed.

Lemma index_app (a b : string) : index 0 a (a +:+ b) = Some 0%nat.
Proof.
  destruct (a +:+ b) as [|c s] eqn:Hab.
  - destruct a; [reflexivity | discriminate].
  - change (index 0 a (String c s))
      with (if String.prefix a (String c s) then Some 0%nat
            else match index 0 a s with Some n => Some (S n) | None => None end).
    rewrite <- Hab, prefix_app. reflexivity.
Qed.

(** The question [/query] puts to the model is the part of the request
    path after ["/query/{doc_id}/"], followed by ["?"] and the query
    string when the URL has one (a question mark in the question ends the
    path), then URL-decoded. *)
Theorem query_question_from_path (doc_id q query : string) :
  raw_question ("/query/" +:+ doc_id +:+ "/" +:+ q) query doc_id
  = if String.eqb query "" then q else q +:+ "?" +:+ query.
Proof.
  unfold raw_question, py_find.
  set (pre := "/query/" +:+ doc_id +:+ "/").
  replace ("/query/" +:+ doc_id +:+ "/" +:+ q) with (pre +:+ q)
    by (unfold pre; rewrite !str_app_assoc; reflexivity).
  rewrite index_app. simpl (Z.of_nat 0). rewrite Z.add_0_l, py_slice_from_app. reflexivity.
Qed.

(** On a record with text, [/query] sends the model the fixed instruction,
    the decoded question and the record's text, and answers with the
    question and the model's text, or fails with 500 whose detail is
    ["Query failed: "] followed by the LLM service's wrapped message. *)
Theorem query_prompt_and_errors E (model : llm_model) (object_id : string -> option N)
    (unquote : string -> string) (path query doc_id : string) (oid : N) (d : doc)
    (st : St) :
  object_id doc_id = Some oid -> find_error E = None -> st_db st !! oid = Some d ->
  extracted_text d <> "" ->
  query_document E model object_id unquote path query doc_id st
  = (let q := unquote (raw_question path query doc_id) in
     match model ("Answer the following question based on the document content:"
                  +:+ blank_line +:+ "Question: " +:+ q +:+ blank_line +:+ "Document:"
                  +:+ blank_line +:+ extracted_text d) with
     | inl e => inl (HTTPException 500 ("Query failed: LLM generation failed: " +:+ py_str e))
     | inr response => inr (doc_id, q, response)
     end,
     set_db_log (st_db_log st ++ [DbFind]) st).
Proof.
  intros Ho Hf Hd He.
  assert (Ht := document_text_found E object_id doc_id oid d st Ho Hf Hd).
  apply String.eqb_neq in He. rewrite He in Ht.
  unfold query_document, bind. rewrite Ht. unfold generate_content, query_prompt.
  destruct (model _); reflexivity.
Qed.

Lemma query_prompt_and_errors_witness :
  query_document env_ok model_echo bson_object_id (fun s => s)
    "/query/0000000000000000000000ff/what is it" "" "0000000000000000000000ff"
    (snd (upload_pdf env_ok 1024 (st_with "a.pdf" sample_pdf)))
  = (inr ("0000000000000000000000ff", "what is it", "summary"),
     set_db_log (st_db_log (snd (upload_pdf env_ok 1024 (st_with "a.pdf" sample_pdf)))
                 ++ [DbFind]) (snd (upload_pdf env_ok 1024 (st_with "a.pdf" sample_pdf)))).
Proof.
  apply (query_prompt_and_errors env_ok model_echo bson_object_id (fun s => s)
           "/query/0000000000000000000000ff/what is it" "" "0000000000000000000000ff" 255%N
           {| filename := "a.pdf"; upload_time := 7;
              extracted_text := "Hello" +:+ blank_line;
              s3_uri := s3_url env_ok 255 |}); vm_compute; try reflexivity; discriminate.
Defined.

(** ** Uploads, continued *)

(** When validation passes, the fresh id is free and no collaborator
    raises (insert, object store, pdfplumber, update, read), the upload
    succeeds: the zero-modified branch and the missing-record branch of
    [upload_pdf] cannot be reached, since the record was just inserted
    with an empty locator and the update sets a non-empty one. *)
Theorem upload_succeeds_when_services_do E (min_file_size : nat) (st : St) (m : string)
    (pages : list page) (text : string) :
  fst (is_valid_upload E min_file_size st) = inr (true, m) ->
  insert_error E = None -> put_object_error E = None ->
  update_error E = None -> find_error E = None ->
  st_db st !! st_next_oid st = None ->
  plumber_pages E (uf_content (st_upload st)) = inr pages ->
  extract_pages "" pages = inr text ->
  fst (upload_pdf E min_file_size st) = inr (oid_str (st_next_oid st), upload_message).
Proof.
  intros Hv Hi Hp Hu Hf Hfresh Hpages Htext.
  unfold upload_pdf, bind at 1.
  rewrite is_valid_upload_run in Hv |- *.
  destruct st as [[fn c pos] fs db n log s3]; simpl in *.
  destruct (str_endswith ".pdf" fn); simpl in Hv; [| discriminate].
  injection Hv as Hv. rewrite Hv. simpl.
  unfold try_except, upload_steps, insert_one, upload_file_to_s3, extract_text, update_one,
    find_one, put_object, log_db, raise_opt, read_upload, seek0, modify, gets, ret, bind, lift, raise.
  rewrite Hi, Hp, Hu, Hf. simpl.
  rewrite Hfresh. simpl. rewrite drop_0, Hpages, Htext. simpl.
  rewrite lookup_insert_eq. simpl.
rewrite andb_false_r. simpl. rewrite lookup_insert_eq. reflexivity. Qed.

Lemma upload_succeeds_when_services_do_witness :
  fst (upload_pdf env_ok 1024 (st_with "a.pdf" sample_pdf))
  = inr (oid_str (st_next_oid (st_with "a.pdf" sample_pdf)), upload_message).
Proof.
  apply (upload_succeeds_when_services_do env_ok 1024 (st_with "a.pdf" sample_pdf)
           "PDF is valid" [text_page "Hello"] ("Hello" +:+ blank_line));
    vm_compute; reflexivity.
Defined.

Lemma pretty_500 : pretty 500%nat = "500".
Proof. vm_compute. reflexivity. Qed.

Definition no_credentials : exn :=
  PyError "NoCredentialsError" "Unable to locate credentials".

Definition env_put_fails : Env :=
  {| pypdf_import := None; pypdf_is_encrypted := fun _ => inr false;
     plumber_pages := fun _ => inr [text_page "Hello"];
     insert_error := None; update_error := None; find_error := None;
     put_object_error := Some no_credentials; utcnow := 7; bucket_name := "bkt";
     region_name := "us-east-1" |}.

(** When the object store refuses the upload, the adapter's 500 is wrapped
    again by the handler (detail ["Upload to s3 failed: 500: Upload to S3
    failed: "] and the cause), nothing is stored, and the record inserted
    just before stays in the collection with empty text and locator: there
    is no rollback. *)
Theorem upload_s3_failure_leaves_pending_record E (min_file_size : nat) (st : St)
    (m : string) (e : exn) :
  fst (is_valid_upload E min_file_size st) = inr (true, m) ->
  insert_error E = None -> st_db st !! st_next_oid st = None ->
  put_object_error E = Some e ->
  fst (upload_pdf E min_file_size st)
  = inl (HTTPException 500 ("Upload to s3 failed: 500: Upload to S3 failed: " +:+ py_str e)) /\
  st_db (snd (upload_pdf E min_file_size st))
  = <[st_next_oid st := {| filename := uf_filename (st_upload st); upload_time := utcnow E;
                           extracted_text := ""; s3_uri := "" |}]> (st_db st) /\
  st_s3 (snd (upload_pdf E min_file_size st)) = st_s3 st.
Proof.
  intros Hv Hi Hfresh Hp.
  destruct (upload_pdf E min_file_size st) as [res st'] eqn:Hrun. simpl.
  unfold upload_pdf, bind at 1 in Hrun.
  rewrite is_valid_upload_run in Hv, Hrun.
  destruct st as [[fn c pos] fs db n log s3]; simpl in *.
  destruct (str_endswith ".pdf" fn); simpl in Hv; [| discriminate].
  injection Hv as Hv. rewrite Hv in Hrun. simpl in Hrun.
  unfold try_except, upload_steps, insert_one, upload_file_to_s3,
    put_object, log_db, raise_opt, read_upload, modify, gets, ret, bind, raise in Hrun.
  rewrite Hi, Hp in Hrun. simpl in Hrun. rewrite Hfresh in Hrun. simpl in Hrun.
  injection Hrun as <- <-. simpl.
  split; [| split; reflexivity].
  unfold py_str at 1. rewrite pretty_500. rewrite <- !str_app_assoc. reflexivity.
Qed.

Lemma upload_s3_failure_leaves_pending_record_witness :
  fst (upload_pdf env_put_fails 1024 (st_with "a.pdf" sample_pdf))
  = inl (HTTPException 500 ("Upload to s3 failed: 500: Upload to S3 failed: "
                            +:+ py_str no_credentials)) /\
  st_db (snd (upload_pdf env_put_fails 1024 (st_with "a.pdf" sample_pdf)))
  = <[st_next_oid (st_with "a.pdf" sample_pdf) :=
        {| filename := uf_filename (st_upload (st_with "a.pdf" sample_pdf));
           upload_time := utcnow env_put_fails;
           extracted_text := ""; s3_uri := "" |}]> (st_db (st_with "a.pdf" sample_pdf)) /\
  st_s3 (snd (upload_pdf env_put_fails 1024 (st_with "a.pdf" sample_pdf)))
  = st_s3 (st_with "a.pdf" sample_pdf).
Proof.
  apply (upload_s3_failure_leaves_pending_record env_put_fails 1024
           (st_with "a.pdf" sample_pdf) "PDF is valid" no_credentials);
    vm_compute; reflexivity.
Defined.

Lemma hex_value_digit (d : N) : (d < 16)%N -> hex_value (hex_digit d) = Some d.
Proof.
  intros H.
  assert (Hn : forall k : nat, (k < 16)%nat ->
            hex_value (hex_digit (N.of_nat k)) = Some (N.of_nat k)).
  { intros k Hk. do 16 (destruct k as [|k]; [reflexivity |]). lia. }
  rewrite <- (N2Nat.id d). apply Hn. lia.
Qed.

Lemma hex_parse_app (acc : N) (a b : string) :
  hex_parse acc (a +:+ b) = match hex_parse acc a with Some v => hex_parse v b | None => None end.
Proof.
  revert acc. induction a as [|x a IH]; intros acc; [reflexivity |].
  simpl. destruct (hex_value x); [apply IH | reflexivity].
Qed.

Lemma hex_fixed_parse (k : nat) (n acc : N) :
  hex_parse acc (hex_fixed k n) = Some (acc * 16 ^ N.of_nat k + n mod 16 ^ N.of_nat k)%N.
Proof.
  revert n acc. induction k as [|k IH]; intros n acc.
  - simpl. rewrite N.mod_1_r. f_equal. lia.
  - simpl hex_fixed. rewrite hex_parse_app, IH. simpl.
    rewrite hex_value_digit by (apply N.mod_lt; lia). simpl. f_equal.
    replace (16 ^ N.of_nat (S k))%N with (16 * 16 ^ N.of_nat k)%N
      by (rewrite Nat2N.inj_succ, N.pow_succ_r'; reflexivity).
    rewrite (N.Div0.mod_mul_r n 16 (16 ^ N.of_nat k)) by (try apply N.pow_nonzero; lia).
    lia.
Qed.

Lemma hex_fixed_length (k : nat) (n : N) : String.length (hex_fixed k n) = k.
Proof.
  revert n. induction k as [|k IH]; intros n; [reflexivity |].
  simpl hex_fixed. rewrite str_length_app, IH. simpl. lia.
Qed.

Lemma bson_object_id_oid_str (o : N) : (o < 16 ^ 24)%N -> bson_object_id (oid_str o) = Some o.
Proof.
  intros H. unfold bson_object_id, oid_str. rewrite hex_fixed_length. simpl Nat.eqb. cbv iota.
  rewrite hex_fixed_parse. f_equal. rewrite N.mod_small by exact H. lia.
Qed.

Lemma insert_one_next E (d : doc) (s s1 : St) (oid : N) :
  insert_one E d s = (inr oid, s1) -> oid = st_next_oid s.
Proof.
  destruct s as [u fs db n log s3]. intros H.
  unfold insert_one, log_db, raise_opt, bind, gets, modify, ret, raise in H.
  destruct (insert_error E); simpl in H; [discriminate |].
  destruct (db !! n); simpl in H; [discriminate |]. simpl. congruence. Qed.

Lemma upload_pdf_stored E (min_file_size : nat) (st st' : St) (r : string * string) :
  upload_pdf E min_file_size st = (inr r, st') ->
  exists pages text,
    r = (oid_str (st_next_oid st), upload_message) /\
    plumber_pages E (uf_content (st_upload st)) = inr pages /\
    extract_pages "" pages = inr text /\
    st_db st' !! st_next_oid st
    = Some {| filename := uf_filename (st_upload st); upload_time := utcnow E;
              extracted_text := text; s3_uri := s3_url E (st_next_oid st) |}.
Proof.
  destruct st as [[fn c pos] fs db n log s3]. intros H.
  unfold upload_pdf in H. apply bind_inr in H as (v & s1 & Hv & Hk).
  rewrite is_valid_upload_run in Hv. simpl in Hv.
  destruct (str_endswith ".pdf" fn); injection Hv as <- <-; [| simpl in Hk; discriminate].
  destruct (validation_verdict E min_file_size (drop pos c)) as [[] why];
    simpl in Hk; [| discriminate].
  apply try_raise_inr in Hk. unfold upload_steps in Hk.
  apply bind_inr in Hk as (f & s2 & Hf & Hk). injection Hf as <- <-.
  apply bind_inr in Hk as (oid & s3' & Hins & Hk).
  pose proof (insert_one_next _ _ _ _ _ Hins) as Hnext. simpl in Hnext. subst oid.
  apply insert_one_ok in Hins as (Hfresh & Hdb3 & Hup3 & Hs33).
  apply bind_inr in Hk as (url & s4 & Hput & Hk).
  apply upload_file_to_s3_ok in Hput as (-> & Hs34 & Hdb4 & Hc4 & Hfn4).
  apply bind_inr in Hk as ([] & s5 & Hseek & Hk). injection Hseek as <-.
  apply bind_inr in Hk as (text & s6 & Hx & Hk).
  apply extract_text_ok in Hx as ((pages & Hpages & Htext) & Hdb6 & Hs36).
  apply bind_inr in Hk as (m & s7 & Hupd & Hk).
  destruct (Nat.eqb m 0) eqn:Hm; [discriminate |]. apply Nat.eqb_neq in Hm.
  apply update_one_ok in Hupd as ((d & Hd & Hdb7) & Hs37); [| exact Hm].
  apply bind_inr in Hk as (fd & s8 & Hfind & Hk).
  apply find_one_ok in Hfind as (_ & Hdb8 & Hs38).
  destruct fd; [| discriminate]. unfold ret in Hk. injection Hk as <- <-.
  simpl in *. rewrite Hup3 in Hc4, Hfn4. simpl in Hc4, Hfn4.
  rewrite Hc4, drop_0 in Hpages.
  exists pages, text. repeat split; auto.
  rewrite Hdb8, Hdb7. simpl in Hd |- *. rewrite Hdb6 in Hd |- *. simpl in Hd |- *.
  rewrite Hdb4, Hdb3 in Hd |- *. rewrite lookup_insert_eq in Hd. injection Hd as <-.
  simpl. rewrite lookup_insert_eq. reflexivity.
Qed.

(** Read after write: after a successful upload, [GET /documents/{doc_id}]
    with the returned id (parsed as bson does) finds the record, with the
    upload's file name, the upload time and the text extracted from the
    whole upload.  The id generator stays below 16^24, the range of an
    ObjectId. *)
Theorem upload_then_get_document E (min_file_size : nat) (st st' : St)
    (doc_id message : string) :
  (st_next_oid st < 16 ^ 24)%N -> find_error E = None ->
  upload_pdf E min_file_size st = (inr (doc_id, message), st') ->
  exists pages text,
    plumber_pages E (uf_content (st_upload st)) = inr pages /\
    extract_pages "" pages = inr text /\
    fst (get_document E bson_object_id doc_id st')
    = inr {| r_doc_id := doc_id; r_filename := uf_filename (st_upload st);
             r_upload_time := utcnow E; r_extracted_text := text |}.
Proof.
  intros Hlt Hf H.
  apply upload_pdf_stored in H as (pages & text & Hr & Hp & Ht & Hdb).
  injection Hr as -> _. exists pages, text. split; [exact Hp |]. split; [exact Ht |].
  unfold get_document. rewrite bson_object_id_oid_str by exact Hlt.
  destruct st' as [u fs db n log s3]. simpl in Hdb.
  unfold find_one, log_db, raise_opt, bind, gets, modify, ret, raise.
  rewrite Hf. simpl. rewrite Hdb. reflexivity.
Qed.

Lemma upload_then_get_document_witness :
  exists pages text,
    plumber_pages env_ok sample_pdf = inr pages /\
    extract_pages "" pages = inr text /\
    fst (get_document env_ok bson_object_id "0000000000000000000000ff"
           (snd (upload_pdf env_ok 1024 (st_with "a.pdf" sample_pdf))))
    = inr {| r_doc_id := "0000000000000000000000ff"; r_filename := "a.pdf";
             r_upload_time := utcnow env_ok; r_extracted_text := text |}.
Proof.
  apply (upload_then_get_document env_ok 1024 (st_with "a.pdf" sample_pdf)
           (snd (upload_pdf env_ok 1024 (st_with "a.pdf" sample_pdf)))
           "0000000000000000000000ff" upload_message); vm_compute; reflexivity.
Defined.

(** ** Listing, continued *)

(** The records [get_documents] lists on a page, the server ordering by [srt]. *)
Definition listing_items (srt : list (N * doc) -> list (N * doc)) (page limit : Z) (st : St)
    : list list_item :=
  match fst (get_documents srt page limit st) with
  | inr (items, _) => items
  | inl _ => []
  end.

Lemma listing_items_page (srt : list (N * doc) -> list (N * doc)) (page limit : Z) (st : St) :
  (1 <= page)%Z -> (1 <= limit <= 100)%Z -> ((page - 1) * limit <= int64_max)%Z ->
  listing_items srt page limit st
  = take (Z.to_nat limit) (drop (Z.to_nat ((page - 1) * limit))
                                (map to_item (srt (map_to_list (st_db st))))).
Proof.
  intros Hp Hl Hskip. unfold listing_items, get_documents, find_page.
  replace ((1 <=? page) && (1 <=? limit) && (limit <=? 100))%Z with true
    by (symmetry; rewrite !andb_true_iff, !Z.leb_le; lia).
  replace (int64_max <? (page - 1) * limit)%Z with false
    by (symmetry; apply Z.ltb_ge; lia).
  simpl. rewrite map_take_comm, map_drop_comm. reflexivity.
Qed.

Lemma concat_pages {A} (L : list A) (l k : nat) :
  concat (map (fun p => take l (drop ((p - 1) * l) L)) (seq 1 k)) = take (k * l) L.
Proof.
  induction k as [|k IH]; [reflexivity |].
  rewrite seq_S, map_app, concat_app, IH. simpl.
  rewrite app_nil_r, Nat.sub_0_r, take_take_drop. f_equal. lia.
Qed.

Lemma total_pages_cover (n l : Z) :
  (0 <= n)%Z -> (1 <= l)%Z -> (n <= (n + l - 1) / l * l)%Z.
Proof.
  intros Hn Hl.
  pose proof (Z.div_mod (n + l - 1) l ltac:(lia)).
  pose proof (Z.mod_pos_bound (n + l - 1) l ltac:(lia)). nia.
Qed.

Lemma total_pages_last (n l : Z) :
  (0 <= n)%Z -> (1 <= l)%Z -> ((n + l - 1) / l * l <= n + l - 1)%Z.
Proof.
  intros Hn Hl. rewrite Z.mul_comm. apply Z.mul_div_le. lia.
Qed.

Lemma newest_first_trans : Transitive newest_first.
Proof. intros a b c. unfold newest_first. lia. Qed.

(** With pairwise distinct upload times, there is one listing sorted
    newest first. *)
Lemma sorted_perm_unique (l1 l2 : list (N * doc)) :
  l1 ≡ₚ l2 -> Sorted newest_first (times l1) -> Sorted newest_first (times l2) ->
  NoDup (times l1) -> l1 = l2.
Proof.
  revert l2. induction l1 as [|x l1 IH]; intros l2 Hp Hs1 Hs2 Hnd.
  - symmetry. apply Permutation_nil. exact Hp.
  - destruct l2 as [|y l2]; [apply Permutation_length in Hp; discriminate |].
    apply (Sorted_StronglySorted newest_first_trans) in Hs1 as Hss1.
    apply (Sorted_StronglySorted newest_first_trans) in Hs2 as Hss2.
    apply StronglySorted_inv in Hss1 as [_ Hf1].
    apply StronglySorted_inv in Hss2 as [_ Hf2].
    rewrite Forall_forall in Hf1, Hf2.
    simpl in Hnd. apply NoDup_cons in Hnd as [Hx Hnd].
    assert (x = y) as <-.
    { assert (Hin : In y (x :: l1))
        by (apply (Permutation_in _ (Permutation_sym Hp)); left; reflexivity).
      destruct Hin as [Hin | Hy]; [exact Hin |].
      assert (Hin : In x (y :: l2)) by (apply (Permutation_in _ Hp); left; reflexivity).
      destruct Hin as [Hin | Hxin]; [symmetry; exact Hin |].
      exfalso.
      assert (H1 := Hf1 (upload_time (snd y))).
      assert (H2 := Hf2 (upload_time (snd x))).
      rewrite !list_elem_of_In in H1, H2.
      specialize (H1 (in_map (fun r : N * doc => upload_time (snd r)) _ _ Hy)).
      specialize (H2 (in_map (fun r : N * doc => upload_time (snd r)) _ _ Hxin)).
      unfold newest_first in H1, H2.
      apply Hx. rewrite list_elem_of_In.
      replace (upload_time (snd x)) with (upload_time (snd y)) by lia.
      apply (in_map (fun r : N * doc => upload_time (snd r))). exact Hy. }
    f_equal. apply IH.
    + apply Permutation_cons_inv in Hp. exact Hp.
    + apply Sorted_inv in Hs1 as [Hs1 _]. exact Hs1.
    + apply Sorted_inv in Hs2 as [Hs2 _]. exact Hs2.
    + exact Hnd.
Qed.

(** Paging through the listing: for a limit in 1..100, a collection whose
    records have pairwise distinct upload times, and any order the server
    uses for each query, the pages 1 to [total_pages] together list every
    record of the collection exactly once, newest first. *)
Theorem get_documents_pages_cover (srts : nat -> list (N * doc) -> list (N * doc))
    (limit : Z) (st : St) :
  (forall p, by_upload_time (srts p)) -> (1 <= limit <= 100)%Z ->
  (Z.of_nat (size (st_db st)) <= int64_max)%Z ->
  NoDup (times (map_to_list (st_db st))) ->
  Sorted newest_first
    (map li_upload_time
       (concat (map (fun p => listing_items (srts p) (Z.of_nat p) limit st)
                    (seq 1 (Z.to_nat ((Z.of_nat (size (st_db st)) + limit - 1) / limit)))))) /\
  concat (map (fun p => listing_items (srts p) (Z.of_nat p) limit st)
              (seq 1 (Z.to_nat ((Z.of_nat (size (st_db st)) + limit - 1) / limit))))
  ≡ₚ map to_item (map_to_list (st_db st)).
Proof.
  intros Hsrt Hl Hsize Hnd.
  set (L := map_to_list (st_db st)).
  set (n := Z.of_nat (size (st_db st))).
  assert (Hn : (0 <= n)%Z) by lia.
  pose proof (total_pages_cover n limit Hn ltac:(lia)) as Hcov.
  pose proof (total_pages_last n limit Hn ltac:(lia)) as Hlast.
  assert (Hk : (0 <= (n + limit - 1) / limit)%Z) by (apply Z.div_pos; lia).
  assert (Hc : concat (map (fun p => listing_items (srts p) (Z.of_nat p) limit st)
                 (seq 1 (Z.to_nat ((n + limit - 1) / limit))))
               = map to_item (sort_desc L)).
  { erewrite map_ext_in.
    2:{ intros p Hp. apply in_seq in Hp.
        rewrite listing_items_page by nia.
        replace (srts p (map_to_list (st_db st))) with (sort_desc L).
        2:{ symmetry. apply sorted_perm_unique.
            - rewrite (proj1 (Hsrt p _)). symmetry. apply sort_desc_perm.
            - apply (proj2 (Hsrt p _)).
            - apply sort_desc_sorted.
            - eapply NoDup_Permutation_proper; [| exact Hnd].
              apply Permutation_map. apply (proj1 (Hsrt p _)). }
        replace (Z.to_nat ((Z.of_nat p - 1) * limit)) with ((p - 1) * Z.to_nat limit)%nat
          by (rewrite Z2Nat.inj_mul by lia; f_equal; lia).
        reflexivity. }
    rewrite concat_pages. apply take_ge.
    rewrite length_map, (Permutation_length (sort_desc_perm _)).
    unfold L. rewrite length_map_to_list. fold n. nia. }
  fold n. rewrite Hc. split.
  - rewrite map_map. apply sort_desc_sorted.
  - rewrite sort_desc_perm. reflexivity.
Qed.

Definition st_uploaded : St := snd (upload_pdf env_ok 1024 (st_with "a.pdf" sample_pdf)).

Lemma get_documents_pages_cover_witness :
  Sorted newest_first
    (map li_upload_time
       (concat (map (fun p => listing_items sort_desc (Z.of_nat p) 10 st_uploaded)
                    (seq 1 (Z.to_nat ((Z.of_nat (size (st_db st_uploaded)) + 10 - 1) / 10)))))) /\
  concat (map (fun p => listing_items sort_desc (Z.of_nat p) 10 st_uploaded)
              (seq 1 (Z.to_nat ((Z.of_nat (size (st_db st_uploaded)) + 10 - 1) / 10))))
  ≡ₚ map to_item (map_to_list (st_db st_uploaded)).
Proof.
  apply (get_documents_pages_cover (fun _ => sort_desc) 10 st_uploaded).
  - intros _. apply sort_desc_by_upload_time.
  - lia.
  - vm_compute. discriminate.
  - vm_compute. repeat constructor. set_solver.
Defined.

(** A page past the last one, whatever order the server uses: if its
    offset fits in a BSON int64 it is answered (no error) with no records
    and [has_next] false, [total] still being the number of records;
    otherwise the driver raises [OverflowError]. *)
Theorem get_documents_past_last_page (srt : list (N * doc) -> list (N * doc))
    (page limit : Z) (st : St) :
  by_upload_time srt -> (1 <= limit <= 100)%Z ->
  ((Z.of_nat (size (st_db st)) + limit - 1) / limit < page)%Z ->
  (((page - 1) * limit <= int64_max)%Z ->
   exists pg, fst (get_documents srt page limit st) = inr ([], pg) /\
              pg_total pg = Z.of_nat (size (st_db st)) /\ pg_has_next pg = false) /\
  ((int64_max < (page - 1) * limit)%Z ->
   fst (get_documents srt page limit st)
   = inl (PyError "OverflowError" "MongoDB can only handle up to 8-byte ints")).
Proof.
  intros Hsrt Hl Hp.
  pose proof (total_pages_cover (Z.of_nat (size (st_db st))) limit ltac:(lia) ltac:(lia)).
  assert (0 <= (Z.of_nat (size (st_db st)) + limit - 1) / limit)%Z
    by (apply Z.div_pos; lia).
  unfold get_documents, find_page.
  replace ((1 <=? page) && (1 <=? limit) && (limit <=? 100))%Z with true
    by (symmetry; rewrite !andb_true_iff, !Z.leb_le; lia).
  split; intros Hskip.
  - replace (int64_max <? (page - 1) * limit)%Z with false
      by (symmetry; apply Z.ltb_ge; lia).
    simpl. eexists. split.
    + rewrite drop_ge; [rewrite take_nil; reflexivity |].
      rewrite (Permutation_length (proj1 (Hsrt _))), length_map_to_list. nia.
    + split; [reflexivity |]. simpl. apply Z.ltb_ge. lia.
  - replace (int64_max <? (page - 1) * limit)%Z with true
      by (symmetry; apply Z.ltb_lt; lia).
    reflexivity.
Qed.

Lemma get_documents_past_last_page_witness :
  exists pg, fst (get_documents sort_desc 2 10 st_uploaded) = inr ([], pg) /\
             pg_total pg = Z.of_nat (size (st_db st_uploaded)) /\
             pg_has_next pg = false.
Proof.
  apply (get_documents_past_last_page sort_desc 2 10 st_uploaded);
    [apply sort_desc_by_upload_time | lia | vm_compute; reflexivity | unfold int64_max; lia].
Defined.

Lemma substring0_length (m : nat) (s : string) :
  String.length (substring 0 m s) = Nat.min m (String.length s).
Proof.
  revert s. induction m as [|m IH]; intros [|c s]; simpl; try reflexivity.
  now rewrite IH.
Qed.

Lemma substring0_prefix (m : nat) (s : string) :
  exists rest, s = substring 0 m s +:+ rest.
Proof.
  revert s. induction m as [|m IH]; intros [|c s]; simpl.
  - exists "". reflexivity.
  - exists (String c s). reflexivity.
  - exists "". reflexivity.
  - destruct (IH s) as [rest Hr]. exists rest.
    change (String c (substring 0 m s) +:+ rest) with (String c (substring 0 m s +:+ rest)).
    f_equal. exact Hr.
Qed.

(** The listing's preview of a record's text: empty for an empty text;
    otherwise the first [min(100, len)] characters of the text followed
    by ["..."], also when nothing was cut. *)
Theorem text_preview_shape (t : string) :
  text_preview "" = "" /\
  (t <> "" ->
   exists pre rest,
     t = pre +:+ rest /\ String.length pre = Nat.min 100 (String.length t) /\
     text_preview t = pre +:+ "...").
Proof.
  split; [reflexivity |]. intros Ht. unfold text_preview.
  apply String.eqb_neq in Ht. rewrite Ht.
  destruct (substring0_prefix 100 t) as [rest Hr].
  exists (substring 0 100 t), rest. split; [exact Hr |].
  split; [apply substring0_length | reflexivity].
Qed.

Lemma text_preview_shape_witness :
  exists pre rest,
    "Hello" = pre +:+ rest /\ String.length pre = Nat.min 100 (String.length "Hello") /\
    text_preview "Hello" = pre +:+ "...".
Proof.
  destruct (text_preview_shape "Hello") as [_ H2].
  apply H2. discriminate.
Defined.

(** ** Tokens *)

Lemma dict_get_map_set (k k' : string) (v : pyval) (d : pydict) :
  dict_get k' (map (fun kv => if String.eqb (fst kv) k then (k, v) else kv) d)
  = if String.eqb k k' then (if existsb (fun kv => String.eqb (fst kv) k) d then Some v else None)
    else dict_get k' d.
Proof.
  induction d as [|[k0 v0] d IH]; simpl.
  - destruct (String.eqb k k'); reflexivity.
  - destruct (String.eqb_spec k0 k) as [->|Hne]; simpl; rewrite ?String.eqb_refl;
      repeat match goal with
             | |- context [String.eqb ?a ?b] => destruct (String.eqb_spec a b); subst
             end; simpl in *; rewrite ?String.eqb_refl in *; try congruence; auto.
Qed.

Lemma dict_get_app_absent (k : string) (d l : pydict) :
  existsb (fun kv => String.eqb (fst kv) k) d = false -> dict_get k (app d l) = dict_get k l.
Proof.
  induction d as [|[k0 v0] d IH]; simpl; [reflexivity |].
  intros H. apply orb_false_iff in H as [H1 H2]. rewrite H1. apply IH, H2.
Qed.

Lemma dict_get_app_other (k : string) (d l : pydict) :
  dict_get k l = None -> dict_get k (app d l) = dict_get k d.
Proof.
  induction d as [|[k0 v0] d IH]; simpl; [auto |].
  intros H. destruct (String.eqb k0 k); [reflexivity | apply IH, H].
Qed.

(** [d.update({k: v})] then [d.get(k)]: the value set; the other keys keep
    their values. *)
Lemma dict_get_set (k k' : string) (v : pyval) (d : pydict) :
  dict_get k' (dict_set k v d) = if String.eqb k k' then Some v else dict_get k' d.
Proof.
  unfold dict_set. destruct (existsb _ d) eqn:He.
  - rewrite dict_get_map_set, He. reflexivity.
  - destruct (String.eqb_spec k k') as [<-|Hne].
    + rewrite dict_get_app_absent by exact He. simpl. rewrite String.eqb_refl. reflexivity.
    + rewrite dict_get_app_other; [reflexivity |]. simpl.
      destruct (String.eqb_spec k k'); [congruence | reflexivity].
Qed.

(** What python-jose leaves under a time claim. *)
Lemma dict_get_jose_time_claim (k k' : string) (d : pydict) :
  dict_get k' (jose_time_claim k d)
  = if String.eqb k k' then
      match dict_get k d with
      | Some (PyDatetime t) => Some (PyInt (t / 1000000))
      | v => v
      end
    else dict_get k' d.
Proof.
  unfold jose_time_claim.
  destruct (dict_get k d) as [[s|z|t]|] eqn:Hk;
    try (destruct (String.eqb_spec k k') as [<-|]; [exact Hk | reflexivity]).
  rewrite dict_get_set. destruct (String.eqb k k'); reflexivity.
Qed.

Ltac dict_keys :=
  repeat (rewrite dict_get_jose_time_claim || rewrite dict_get_set);
  repeat match goal with
         | |- context [String.eqb ?a ?b] => destruct (String.eqb_spec a b); subst
         end;
  try solve [congruence | reflexivity | discriminate].

Lemma jose_exp_set (t : Z) (d : pydict) :
  dict_get "exp" (jose_time_claims (dict_set "exp" (PyDatetime t) d))
  = Some (PyInt (t / 1000000)).
Proof. unfold jose_time_claims. dict_keys. Qed.

Lemma jose_iat_nbf (t : Z) (k : string) (d : pydict) :
  k = "iat" \/ k = "nbf" ->
  dict_get k (jose_time_claims (dict_set "exp" (PyDatetime t) d))
  = match dict_get k d with
    | Some (PyDatetime t') => Some (PyInt (t' / 1000000))
    | v => v
    end.
Proof.
  unfold jose_time_claims. intros [-> | ->]; dict_keys;
    destruct (dict_get _ d) as [[]|]; reflexivity.
Qed.

Lemma jose_other (t : Z) (k : string) (d : pydict) :
  k <> "exp" -> k <> "iat" -> k <> "nbf" ->
  dict_get k (jose_time_claims (dict_set "exp" (PyDatetime t) d)) = dict_get k d.
Proof. unfold jose_time_claims. intros. dict_keys. Qed.

Lemma jose_fresh (t : Z) :
  jose_time_claims (dict_set "exp" (PyDatetime t) []) = [("exp", PyInt (t / 1000000))].
Proof. reflexivity. Qed.

Lemma expiry_in_range (e : Z) :
  (datetime_min_us <= e <= datetime_max_us)%Z ->
  ((e <? datetime_min_us) || (datetime_max_us <? e))%Z = false.
Proof.
  intros H. apply orb_false_iff. split; apply Z.ltb_ge; lia.
Qed.

(** [create_access_token] with a non-empty dict: [data or {}] is the
    caller's own dict, which the call changes in place: ["exp"] ends up
    holding the expiry as whole seconds since the epoch (an [int], as
    [jwt.encode] leaves it), a [datetime] under ["iat"] or ["nbf"] is
    converted the same way, and every other key keeps its value; the token
    signs that same dict.  The expiry is in the [datetime] range. *)
Theorem create_access_token_mutates_caller_dict (sign : pydict -> exn + string)
    (td_msg : Z -> string) (expire_minutes now : Z) (h : heap) (r : positive) (d : pydict)
    (expires_delta : option Z) (delta : Z) :
  h !! r = Some d -> d <> [] ->
  effective_delta td_msg expire_minutes expires_delta = inr delta ->
  (datetime_min_us <= now + delta <= datetime_max_us)%Z ->
  exists d',
    create_access_token sign td_msg expire_minutes now h (Some r) expires_delta
    = (sign d', <[r := d']> h) /\
    dict_get "exp" d' = Some (PyInt ((now + delta) / 1000000)) /\
    (forall k, k = "iat" \/ k = "nbf" ->
     dict_get k d' = match dict_get k d with
                     | Some (PyDatetime t) => Some (PyInt (t / 1000000))
                     | v => v
                     end) /\
    (forall k, k <> "exp" -> k <> "iat" -> k <> "nbf" -> dict_get k d' = dict_get k d).
Proof.
  intros Hr Hd Hdelta Hrange. unfold create_access_token. cbv beta iota zeta.
  rewrite Hr. destruct d as [|kv d']; [congruence |]. cbv beta iota.
  rewrite Hdelta, expiry_in_range by exact Hrange. rewrite Hr. simpl.
  eexists. split; [reflexivity |]. split; [| split].
  - apply jose_exp_set.
  - intros k Hk. apply jose_iat_nbf, Hk.
  - intros k H1 H2 H3. apply jose_other; assumption.
Qed.

Definition sign_stub (d : pydict) : exn + string := inr "header.payload.signature".

Definition td_msg_stub (days : Z) : string := "days out of range".

Definition caller_heap : heap := {[ 1%positive := [("sub", PyStr "alice")] ]}.

(** 2023-11-14T22:13:20, in microseconds. *)
Definition now_stub : Z := 1700000000000000%Z.

Lemma create_access_token_mutates_caller_dict_witness :
  exists d',
    create_access_token sign_stub td_msg_stub 60 now_stub caller_heap (Some 1%positive) None
    = (sign_stub d', <[1%positive := d']> caller_heap) /\
    dict_get "exp" d' = Some (PyInt ((now_stub + 3600000000) / 1000000)) /\
    (forall k, k = "iat" \/ k = "nbf" ->
     dict_get k d' = match dict_get k [("sub", PyStr "alice")] with
                     | Some (PyDatetime t) => Some (PyInt (t / 1000000))
                     | v => v
                     end) /\
    (forall k, k <> "exp" -> k <> "iat" -> k <> "nbf" ->
     dict_get k d' = dict_get k [("sub", PyStr "alice")]).
Proof.
  apply (create_access_token_mutates_caller_dict sign_stub td_msg_stub 60 now_stub caller_heap
           1%positive [("sub", PyStr "alice")] None 3600000000);
    [reflexivity | discriminate | reflexivity | unfold now_stub, datetime_min_us, datetime_max_us; lia].
Defined.

(** [create_access_token] with no dict or an empty one: [data or {}] is a
    new dict, so no existing object changes, and the payload holds only
    ["exp"], as whole seconds since the epoch.  The expiry is in the
    [datetime] range. *)
Theorem create_access_token_fresh_payload (sign : pydict -> exn + string)
    (td_msg : Z -> string) (expire_minutes now : Z) (h : heap) (data : option positive)
    (expires_delta : option Z) (delta : Z) :
  (data = None \/ exists r, data = Some r /\ h !! r = Some []) ->
  effective_delta td_msg expire_minutes expires_delta = inr delta ->
  (datetime_min_us <= now + delta <= datetime_max_us)%Z ->
  exists r',
    h !! r' = None /\
    create_access_token sign td_msg expire_minutes now h data expires_delta
    = (sign [("exp", PyInt ((now + delta) / 1000000))],
       <[r' := [("exp", PyInt ((now + delta) / 1000000))]]> h).
Proof.
  intros Hdata Hdelta Hrange. unfold create_access_token.
  assert (Hf : h !! fresh (dom h) = None)
    by (apply not_elem_of_dom, is_fresh).
  destruct Hdata as [->|(r & -> & Hr)]; [| rewrite Hr]; cbv beta iota;
    rewrite Hdelta, expiry_in_range by exact Hrange;
    rewrite lookup_insert_eq; simpl; rewrite jose_fresh;
    exists (fresh (dom h)); split; try exact Hf;
    rewrite insert_insert_eq; reflexivity.
Qed.

Lemma create_access_token_fresh_payload_witness :
  exists r',
    caller_heap !! r' = None /\
    create_access_token sign_stub td_msg_stub 60 now_stub caller_heap None None
    = (sign_stub [("exp", PyInt ((now_stub + 3600000000) / 1000000))],
       <[r' := [("exp", PyInt ((now_stub + 3600000000) / 1000000))]]> caller_heap).
Proof.
  apply (create_access_token_fresh_payload sign_stub td_msg_stub 60 now_stub caller_heap
           None None 3600000000);
    [left; reflexivity | reflexivity | unfold now_stub, datetime_min_us, datetime_max_us; lia].
Defined.



(** [generate_token]: with an expiry setting in the [timedelta] range and
    an expiry in the [datetime] range, the response is the token signed
    over a new dict holding only ["exp"] (whole seconds since the epoch,
    [JWT_ACCESS_TOKEN_EXPIRE_MINUTES] after now), with token type
    ["bearer"]; no existing object changes. *)
Theorem generate_token_bearer (sign : pydict -> exn + string) (td_msg : Z -> string)
    (expire_minutes now : Z) (h : heap) :
  (Z.abs (minutes_to_us expire_minutes / us_per_day) <= 999999999)%Z ->
  (datetime_min_us <= now + minutes_to_us expire_minutes <= datetime_max_us)%Z ->
  exists r',
    h !! r' = None /\
    generate_token sign td_msg expire_minutes now h
    = (match sign [("exp", PyInt ((now + minutes_to_us expire_minutes) / 1000000))] with
       | inl e => inl e
       | inr token => inr (token, "bearer")
       end,
       <[r' := [("exp", PyInt ((now + minutes_to_us expire_minutes) / 1000000))]]> h).
Proof.
  intros Hdays Hrange. unfold generate_token.
  destruct (create_access_token_fresh_payload sign td_msg expire_minutes now h None None
              (minutes_to_us expire_minutes) (or_introl eq_refl))
    as (r' & Hr' & Heq).
  - unfold effective_delta, timedelta_minutes.
    replace (Z.abs (minutes_to_us expire_minutes / us_per_day) <=? 999999999)%Z with true
      by (symmetry; apply Z.leb_le; exact Hdays).
    reflexivity.
  - exact Hrange.
  - rewrite Heq. exists r'. split; [exact Hr' | reflexivity].
Qed.

Lemma generate_token_bearer_witness :
  exists r',
    caller_heap !! r' = None /\
    generate_token sign_stub td_msg_stub 60 now_stub caller_heap
    = (match sign_stub [("exp", PyInt ((now_stub + minutes_to_us 60) / 1000000))] with
       | inl e => inl e
       | inr token => inr (token, "bearer")
       end,
       <[r' := [("exp", PyInt ((now_stub + minutes_to_us 60) / 1000000))]]> caller_heap).
Proof.
  apply (generate_token_bearer sign_stub td_msg_stub 60 now_stub caller_heap);
    unfold minutes_to_us, us_per_day, now_stub, datetime_min_us, datetime_max_us;
    [vm_compute; discriminate | lia].
Defined.

(** ** Configuration, logging and helpers *)

(** A non-empty string, Python's truth value of an optional [str]. *)
Definition py_truthy (o : option string) : bool :=
  match o with Some s => negb (String.eqb s "") | None => false end.

(** [S3Service.__init__]: when neither the bucket argument nor the
    [S3_BUCKET_NAME] setting is a non-empty string, construction fails with
    [ValueError("S3 bucket name must be provided")] before any S3 client is
    created; otherwise the bucket is the argument when it is a non-empty
    string, else the setting, the region is chosen the same way (and may
    stay [None]), and the outcome is that of [boto3.client]. *)
Theorem s3_service_init_bucket (client_error : option exn)
    (bucket_name_arg region_name_arg S3_BUCKET_NAME AWS_REGION : option string) :
  (py_truthy bucket_name_arg = false -> py_truthy S3_BUCKET_NAME = false ->
   s3_service_init client_error bucket_name_arg region_name_arg S3_BUCKET_NAME AWS_REGION
   = inl (PyError "ValueError" "S3 bucket name must be provided")) /\
  (forall b,
   (bucket_name_arg = Some b \/ (py_truthy bucket_name_arg = false /\ S3_BUCKET_NAME = Some b)) ->
   b <> "" ->
   s3_service_init client_error bucket_name_arg region_name_arg S3_BUCKET_NAME AWS_REGION
   = match client_error with
     | Some e => inl e
     | None => inr (b, if py_truthy region_name_arg then region_name_arg else AWS_REGION)
     end).
Proof.
  assert (Hregion : py_or region_name_arg AWS_REGION
                    = if py_truthy region_name_arg then region_name_arg else AWS_REGION).
  { unfold py_or, py_truthy. destruct region_name_arg as [x|]; [| reflexivity].
    destruct (String.eqb_spec x ""); reflexivity. }
  unfold s3_service_init. rewrite Hregion. split.
  - unfold py_or, py_truthy. intros Ha Hs.
    destruct bucket_name_arg as [a|], S3_BUCKET_NAME as [sb|]; simpl in *;
      repeat match goal with
             | H : negb (String.eqb ?x "") = false |- _ =>
                 apply negb_false_iff in H; rewrite ?H
             end; try reflexivity;
      destruct (String.eqb a ""); simpl in *; try rewrite Hs; reflexivity.
  - intros b [-> | [Ha ->]] Hb; apply String.eqb_neq in Hb.
    + unfold py_or. rewrite Hb. rewrite Hb. reflexivity.
    + unfold py_or. unfold py_truthy in Ha.
      destruct bucket_name_arg as [a|]; [| rewrite Hb; reflexivity].
      apply negb_false_iff in Ha. rewrite Ha, Hb. reflexivity.
Qed.

Lemma s3_service_init_bucket_witness :
  s3_service_init None (Some "") None (Some "bkt") None = inr ("bkt", None).
Proof.
  destruct (s3_service_init_bucket None (Some "") None (Some "bkt") None) as [_ H].
  apply (H "bkt"); [right; split; reflexivity | discriminate].
Defined.

(** No occurrence of [c] in [s]. *)
Definition char_free (c : ascii) (s : string) : Prop := forall n, String.get n s <> Some c.

Lemma char_free_cons (c x : ascii) (s : string) :
  x <> c -> char_free c s -> char_free c (String x s).
Proof. intros Hx Hs [|n]; simpl; [congruence | apply Hs]. Qed.

Lemma py_rfind_spec (c : ascii) (s : string) :
  (py_rfind c s = (-1)%Z /\ char_free c s) \/
  exists a b, s = a +:+ String c b /\ char_free c b /\ py_rfind c s = Z.of_nat (String.length a).
Proof.
  induction s as [|x s IH].
  - left. split; [reflexivity | intros n; destruct n; discriminate].
  - simpl. destruct IH as [[Hk Hfree] | (a & b & -> & Hb & Hk)].
    + rewrite Hk. simpl. destruct (ascii_dec x c) as [->|Hne].
      * right. exists "", s. auto.
      * left. split; [reflexivity | apply char_free_cons; assumption].
    + right. rewrite Hk. exists (String x a), b. split; [reflexivity |]. split; [exact Hb |].
      replace (0 <=? Z.of_nat (String.length a))%Z with true by (symmetry; apply Z.leb_le; lia).
      simpl. lia.
Qed.

Lemma py_slice_from_0 (s : string) : py_slice_from s 0 = s.
Proof.
  unfold py_slice_from. change (0 <? 0)%Z with false. cbv iota.
  rewrite Z.min_l by lia. rewrite Z.sub_0_r, Nat2Z.id. apply substring_all.
Qed.

(** [os.path.basename]: the part of the path after its last ['/'], the
    whole path when it has none. *)
Lemma py_basename_spec (p : string) :
  exists pre, p = pre +:+ py_basename p /\ char_free "/" (py_basename p) /\
              (pre = "" \/ exists a, pre = a +:+ "/").
Proof.
  unfold py_basename. destruct (py_rfind_spec "/" p) as [[-> Hfree] | (a & b & -> & Hb & ->)].
  - simpl. rewrite py_slice_from_0. exists "". auto.
  - replace (a +:+ String "/" b) with ((a +:+ String "/" "") +:+ b)
      by (rewrite str_app_assoc; reflexivity).
    replace (Z.of_nat (String.length a) + 1)%Z
      with (Z.of_nat (String.length (a +:+ String "/" "")))
      by (rewrite str_length_app; simpl; lia).
    rewrite py_slice_from_app. exists (a +:+ String "/" ""). split; [reflexivity |].
    split; [exact Hb |]. right. exists a. reflexivity.
Qed.

(** In Lambda the log file is [/tmp/] followed by the configured path's
    last component (the part after its last ['/'], the whole path when it
    has none); elsewhere it is the configured path; an empty path gives no
    log file. *)
Theorem log_file_path_lambda (log_file : string) :
  log_file_path true "" = None /\ log_file_path false "" = None /\
  (log_file <> "" ->
   log_file_path false log_file = Some log_file /\
   exists pre name, log_file_path true log_file = Some ("/tmp/" +:+ name) /\
                    log_file = pre +:+ name /\ char_free "/" name /\
                    (pre = "" \/ exists a, pre = a +:+ "/")).
Proof.
  split; [reflexivity |]. split; [reflexivity |]. intros Hne.
  unfold log_file_path. apply String.eqb_neq in Hne. rewrite Hne.
  split; [reflexivity |].
  destruct (py_basename_spec log_file) as (pre & Hpre & Hfree & Hshape).
  exists pre, (py_basename log_file). split; [| auto].
  destruct (String.prefix "/" log_file); reflexivity.
Qed.

Lemma log_file_path_lambda_witness :
  log_file_path false "logs/app.log" = Some "logs/app.log" /\
  exists pre name, log_file_path true "logs/app.log" = Some ("/tmp/" +:+ name) /\
                   "logs/app.log" = pre +:+ name /\ char_free "/" name /\
                   (pre = "" \/ exists a, pre = a +:+ "/").
Proof.
  destruct (log_file_path_lambda "logs/app.log") as (_ & _ & H).
  apply H. discriminate.
Defined.

(** [char_free] by computation. *)
Fixpoint char_freeb (c : ascii) (s : string) : bool :=
  match s with
  | EmptyString => true
  | String x s' => if ascii_dec x c then false else char_freeb c s'
  end.

Lemma char_freeb_free (c : ascii) (s : string) : char_freeb c s = true -> char_free c s.
Proof.
  induction s as [|x s IH]; simpl; [intros _ [|n]; discriminate |].
  destruct (ascii_dec x c); [discriminate |]. intros H. apply char_free_cons; auto.
Qed.

Lemma str_get_lt (i : nat) (s : string) (ch : ascii) :
  String.get i s = Some ch -> (i < String.length s)%nat.
Proof.
  revert i. induction s as [|x s IH]; intros [|i] H; simpl in *; try discriminate; try lia.
  apply IH in H. lia.
Qed.

Lemma str_get_app_l (a b : string) (n : nat) :
  (n < String.length a)%nat -> String.get n (a +:+ b) = String.get n a.
Proof. intros H. symmetry. apply append_correct1, H. Qed.

Lemma str_get_app_r (a b : string) (n : nat) :
  String.get (n + String.length a) (a +:+ b) = String.get n b.
Proof. symmetry. apply append_correct2. Qed.

Lemma char_free_app (c : ascii) (a b : string) :
  char_free c a -> char_free c b -> char_free c (a +:+ b).
Proof.
  intros Ha Hb n. destruct (Nat.lt_ge_cases n (String.length a)) as [Hlt|Hge].
  - rewrite str_get_app_l by exact Hlt. apply Ha.
  - replace n with ((n - String.length a) + String.length a)%nat by lia.
    rewrite str_get_app_r. apply Hb.
Qed.

Lemma py_rfind_free (c : ascii) (s : string) : char_free c s -> py_rfind c s = (-1)%Z.
Proof.
  intros Hs. destruct (py_rfind_spec c s) as [[H _] | (a & b & -> & _ & _)]; [exact H |].
  exfalso. apply (Hs (0 + String.length a)%nat). rewrite str_get_app_r. reflexivity.
Qed.

Lemma py_rfind_last (c : ascii) (a x : string) :
  char_free c x -> py_rfind c (a +:+ String c x) = Z.of_nat (String.length a).
Proof.
  intros Hx. induction a as [|y a IH].
  - simpl. rewrite (py_rfind_free c x Hx). simpl.
    destruct (ascii_dec c c); [reflexivity | congruence].
  - change (py_rfind c (String y (a +:+ String c x)) = Z.of_nat (S (String.length a))).
    simpl. rewrite IH.
    replace (0 <=? Z.of_nat (String.length a))%Z with true by (symmetry; apply Z.leb_le; lia).
    lia.
Qed.

(** A name [stem.ext], with a [stem] that is not all dots and an [ext]
    without dots, has the extension ["." + ext], lower-cased. *)
Theorem get_file_extension_suffix (stem x : string) :
  char_free "/" stem -> char_free "/" x -> char_free "." x ->
  (exists i ch, String.get i stem = Some ch /\ ch <> "."%char) ->
  get_file_extension (stem +:+ String "." x) = String "." (py_lower x).
Proof.
  intros Hs Hx Hdot (i & ch & Hi & Hch).
  unfold get_file_extension, splitext_ext.
  rewrite (py_rfind_free "/" (stem +:+ String "." x))
    by (apply char_free_app; [exact Hs | apply char_free_cons; [discriminate | exact Hx]]).
  rewrite (py_rfind_last "." stem x Hdot).
  replace (-1 <? Z.of_nat (String.length stem))%Z with true by (symmetry; apply Z.ltb_lt; lia).
  replace (Z.to_nat (-1 + 1)) with 0%nat by reflexivity.
  rewrite Nat2Z.id, Nat.sub_0_r.
  replace (existsb (char_is_not "." (stem +:+ String "." x)) (seq 0 (String.length stem)))
    with true.
  - rewrite py_slice_from_app. reflexivity.
  - symmetry. apply existsb_exists. exists i. split.
    + apply in_seq. apply str_get_lt in Hi. lia.
    + unfold char_is_not. rewrite str_get_app_l by (eapply str_get_lt; exact Hi).
      rewrite Hi. destruct (ascii_dec ch "."); [congruence | reflexivity].
Qed.

Lemma get_file_extension_suffix_witness :
  get_file_extension ("report" +:+ String "." "PDF") = String "." (py_lower "PDF").
Proof.
  apply get_file_extension_suffix;
    [apply char_freeb_free; reflexivity | apply char_freeb_free; reflexivity
    | apply char_freeb_free; reflexivity |].
  exists 0%nat, "r"%char. split; [reflexivity | discriminate].
Defined.

Fixpoint dots (n : nat) : string :=
  match n with
  | O => ""
  | S n' => String "." (dots n')
  end.

Lemma dots_S_r (n : nat) : dots (S n) = dots n +:+ String "." "".
Proof.
  induction n as [|n IH]; [reflexivity |].
  change (String "." (dots (S n)) = String "." (dots n +:+ String "." "")). now rewrite IH.
Qed.

Lemma dots_length (n : nat) : String.length (dots n) = n.
Proof. induction n; simpl; congruence. Qed.

Lemma dots_get (n i : nat) : (i < n)%nat -> String.get i (dots n) = Some "."%char.
Proof. revert i. induction n as [|n IH]; intros [|i] H; simpl; try lia; auto. apply IH. lia. Qed.

Lemma dots_free (n : nat) : char_free "/" (dots n).
Proof. induction n; [intros [|]; discriminate | apply char_free_cons; [discriminate | auto]]. Qed.

(** A name made of leading dots and a part without dots (a dotfile such
    as [.bashrc]) has no extension. *)
Theorem get_file_extension_dotfile (k : nat) (x : string) :
  char_free "/" x -> char_free "." x -> get_file_extension (dots k +:+ x) = "".
Proof.
  intros Hx Hdot. unfold get_file_extension, splitext_ext.
  rewrite (py_rfind_free "/" (dots k +:+ x)) by (apply char_free_app; [apply dots_free | exact Hx]).
  destruct k as [|k].
  - change (dots 0 +:+ x) with x. rewrite (py_rfind_free "." x Hdot). reflexivity.
  - rewrite dots_S_r, str_app_assoc. change (String "." "" +:+ x) with (String "." x).
    rewrite (py_rfind_last "." (dots k) x Hdot), dots_length.
    replace (-1 <? Z.of_nat k)%Z with true by (symmetry; apply Z.ltb_lt; lia).
    replace (Z.to_nat (-1 + 1)) with 0%nat by reflexivity.
    rewrite Nat2Z.id, Nat.sub_0_r.
    destruct (existsb _ _) eqn:He; [| reflexivity].
    apply existsb_exists in He as (i & Hin & Hi). apply in_seq in Hin.
    unfold char_is_not in Hi. rewrite str_get_app_l in Hi by (rewrite dots_length; lia).
    rewrite dots_get in Hi by lia. destruct (ascii_dec "." "."); [discriminate | congruence].
Qed.

Lemma get_file_extension_dotfile_witness :
  get_file_extension (dots 1 +:+ "bashrc") = "".
Proof.
  apply get_file_extension_dotfile; apply char_freeb_free; reflexivity.
Defined.
